(** * train_ensemble.py: a shallow embedding of the K-fold training script

    The script glues external collaborators (torch, torchvision, pandas,
    sklearn) around a small amount of control flow of its own.  This file
    embeds that control flow: the model selector, the path incrementer, the
    per-class metrics table writer, the batch loop with its running sums and
    the per-epoch checkpoint policy.  What the collaborators compute (losses,
    predictions, trained weights) enters as data. *)

From Stdlib Require Import ZArith String Ascii List Lia Floats.SpecFloat.
From stdpp Require Import base option gmap strings list pretty numbers.

Open Scope string_scope.

(** ** Python outcomes: a value or a raised exception *)

Module Py.

Inductive exn : Type :=
| UnboundLocalError (var : string)
| KeyError (key : string)
| ValueError
| RuntimeError
| ZeroDivisionError.

Inductive result (A : Type) : Type :=
| Ok (a : A)
| Raise (e : exn).
Arguments Ok {A} a.
Arguments Raise {A} e.

Definition bind {A B : Type} (r : result A) (k : A -> result B) : result B :=
  match r with
  | Ok a => k a
  | Raise e => Raise e
  end.

(** Reading a local variable: a name that no executed statement has
    assigned is unbound, and reading it raises. *)
Definition read_local {A : Type} (var : string) (slot : option A) : result A :=
  match slot with
  | Some a => Ok a
  | None => Raise (UnboundLocalError var)
  end.

(** [d[k]] on a dict. *)
Definition getitem {A : Type} (d : gmap string A) (k : string) : result A :=
  match d !! k with
  | Some a => Ok a
  | None => Raise (KeyError k)
  end.

End Py.

(** stdpp's monad classes give the [x ← r; k] notation. *)
#[global] Instance result_ret : MRet Py.result := @Py.Ok.
#[global] Instance result_bind : MBind Py.result :=
  fun A B k r => Py.bind r k.

(** ** torch.nn modules, as far as the selector touches them *)

Module Torch.

(** [nn.Linear(in_features, out_features)]. *)
Record Linear : Type := mkLinear { in_features : Z; out_features : Z }.

(** A negative dimension makes the weight tensor's construction fail. *)
Definition nn_Linear (i o : Z) : Py.result Linear :=
  if (i <? 0)%Z || (o <? 0)%Z then Py.Raise Py.RuntimeError
  else Py.Ok (mkLinear i o).

Inductive arch : Type := ResNet | DenseNet | ShuffleNetV2 | EfficientNet.

(** An [nn.Module] instance: its class and the Linear submodules
    registered on it, by attribute name. *)
Record module : Type := mkModule { cls : arch; attrs : gmap string Linear }.

(** [m.name = layer]: [nn.Module.__setattr__] registers the submodule under
    that name, replacing one of the same name and adding it otherwise. *)
Definition setattr (m : module) (name : string) (layer : Linear) : module :=
  mkModule (cls m) (<[name := layer]> (attrs m)).

(** The attribute through which each class's [forward] produces its
    logits: torchvision's ResNet and ShuffleNetV2 end in [self.fc],
    DenseNet in [self.classifier], efficientnet_pytorch in [self._fc]. *)
Definition head_attr (a : arch) : string :=
  match a with
  | ResNet => "fc"
  | DenseNet => "classifier"
  | ShuffleNetV2 => "fc"
  | EfficientNet => "_fc"
  end.

(** Width of the logits vector that [forward] returns. *)
Definition num_logits (m : module) : option Z :=
  out_features <$> attrs m !! head_attr (cls m).

(** The pretrained ImageNet networks, each with its 1000-way head. *)
Definition models_resnet18 : module :=
  mkModule ResNet {[ "fc" := mkLinear 512 1000 ]}.
Definition models_densenet161 : module :=
  mkModule DenseNet {[ "classifier" := mkLinear 2208 1000 ]}.
Definition hub_shufflenet_v2_x1_0 : module :=
  mkModule ShuffleNetV2 {[ "fc" := mkLinear 1024 1000 ]}.

(** [EfficientNet.from_pretrained('efficientnet-b0', num_classes=n)]
    builds the b0 network with a head of [n] outputs. *)
Definition EfficientNet_b0_from_pretrained (n : Z) : Py.result module :=
  fc ← nn_Linear 1280 n;
  Py.Ok (mkModule EfficientNet {[ "_fc" := fc ]}).

End Torch.

(** ** select_model *)

Inductive pyval : Type :=
| PyNone
| PyModule (m : Torch.module).

(** The branches assign the local [model_]; the last statement reads it. *)
Definition select_model (model : string) (num_classes : Z) : Py.result pyval :=
  model_ ←
    (if String.eqb model "resnet18" then
       fc ← Torch.nn_Linear 1024 num_classes;
       Py.Ok (Some (Torch.setattr Torch.models_resnet18 "classifier" fc))
     else if String.eqb model "densenet161" then
       fc ← Torch.nn_Linear 2208 num_classes;
       Py.Ok (Some (Torch.setattr Torch.models_densenet161 "classifier" fc))
     else if String.eqb model "shufflenet" then
       fc ← Torch.nn_Linear 1024 num_classes;
       Py.Ok (Some (Torch.setattr Torch.hub_shufflenet_v2_x1_0 "fc" fc))
     else if String.eqb model "efficientnet" then
       m ← Torch.EfficientNet_b0_from_pretrained num_classes;
       Py.Ok (Some m)
     else Py.Ok None);
  m ← Py.read_local "model_" model_;
  Py.Ok (PyModule m).

Definition recognized (model : string) : Prop :=
  model = "resnet18" \/ model = "densenet161" \/
  model = "shufflenet" \/ model = "efficientnet".

(** Logits width of what the selector returned, when it returned a module. *)
Definition selected_logits (r : Py.result pyval) : option Z :=
  match r with
  | Py.Ok (PyModule m) => Torch.num_logits m
  | _ => None
  end.


(** ** Python floats

    A Python float is an IEEE binary64 value; SpecFloat's operations at
    precision 53 compute on them.  A float32 cell of a data frame holds a
    binary32 value, and storing a float there rounds it to precision 24. *)

Module Float.

Definition t : Type := spec_float.

Definition zero : t := S754_zero false.
Definition inf : t := S754_infinity false.
Definition nan : t := S754_nan.

Definition of_int (z : Z) : t := binary_normalize 53 1024 z 0 false.
Definition add (x y : t) : t := SFadd 53 1024 x y.
Definition div (x y : t) : t := SFdiv 53 1024 x y.

(** [x > y] and [x < y]; false as soon as one side is NaN. *)
Definition ltb (x y : t) : bool := SFltb x y.
Definition gtb (x y : t) : bool := SFltb y x.

Definition is_nan (x : t) : bool :=
  match x with S754_nan => true | _ => false end.

(** Conversion to single precision, round to nearest even.  The result
    is the single-precision value, written as the double of that value so
    that it compares with doubles. *)
Definition round_float32 (x : t) : t :=
  match x with
  | S754_finite s m e => binary_round 24 128 s m e
  | _ => x
  end.

Definition to_float32 (x : t) : t :=
  match round_float32 x with
  | S754_finite s m e => binary_round 53 1024 s m e
  | y => y
  end.

(** [a / b] on two Python ints (for operands that binary64 holds
    exactly, which counts of samples and batches are). *)
Definition int_truediv (a b : Z) : Py.result t :=
  if (b =? 0)%Z then Py.Raise Py.ZeroDivisionError
  else Py.Ok (div (of_int a) (of_int b)).

(** [x / n] for a float and a Python int; a zero divisor raises. *)
Definition div_int (x : t) (n : Z) : Py.result t :=
  if (n =? 0)%Z then Py.Raise Py.ZeroDivisionError
  else Py.Ok (div x (of_int n)).

End Float.

(** [a % b] on Python ints: floored, the sign of the divisor, and an error
    on a zero divisor. *)
Definition py_mod (a b : Z) : Py.result Z :=
  if (b =? 0)%Z then Py.Raise Py.ZeroDivisionError else Py.Ok (a mod b)%Z.

(** ** The file system and the telemetry the script writes *)

(** [model.state_dict()]: parameter names to tensor entries. *)
Definition state_dict : Type := gmap string (list Float.t).

Inductive cell : Type :=
| CFloat (x : Float.t)
| CInt (z : Z).

(** sklearn's [classification_report(..., output_dict=True)], the entries
    under the class labels: label to metric name to value. *)
Definition report_dict : Type := gmap string (gmap string Float.t).

Inductive content : Type :=
| Checkpoint (w : state_dict)
| Csv (header : list string) (rows : list (list cell))
| ConfigJson.

Inductive node : Type :=
| Dir
| File (c : content).

Inductive event : Type :=
| Wrote (path : string) (c : content)
| AddScalar (tag : string) (value : Float.t) (step : Z)
| SelectedModel (m : pyval).

Record world : Type := mkWorld {
  fs : gmap string node;
  trace : list event
}.

Definition emit (e : event) (w : world) : world :=
  mkWorld (fs w) (trace w ++ [e]).

(** Writing a file creates it or replaces what was there. *)
Definition write_file (path : string) (c : content) (w : world) : world :=
  mkWorld (<[path := File c]> (fs w)) (trace w ++ [Wrote path c]).

Definition torch_save (sd : state_dict) (path : string) (w : world) : world :=
  write_file path (Checkpoint sd) w.

Definition add_scalar (tag : string) (value : Float.t) (step : Z)
    (w : world) : world :=
  emit (AddScalar tag value step) w.

(** ** Error analysis code *)

(** [pd.DataFrame({'true': y_true, 'pred': y_pred})] wants columns of one
    length; the rows pair the two arrays position by position. *)
Definition save_best_val_pred (y_true y_pred : list Z) (dir_model : string)
    (w : world) : Py.result world :=
  if negb (length y_true =? length y_pred)%nat then Py.Raise Py.ValueError
  else
    let df_val_pred :=
      zip_with (fun t p => [CInt t; CInt p]) y_true y_pred in
    Py.Ok (write_file (dir_model ++ "/pred_result.csv")
                      (Csv ["true"; "pred"] df_val_pred) w).

(** A row of the float32 frame with columns precision, recall, f1. *)
Definition f1_row : Type := (Float.t * Float.t * Float.t)%type.

Definition nan_row : f1_row := (Float.nan, Float.nan, Float.nan).

(** The frame as created: index [np.arange(0, 18)], every cell NaN. *)
Definition empty_f1_frame : list f1_row := replicate 18 nan_row.

(** The loop over [df_f1_rslt.index]: row [idx] receives the three values
    read from [report[str(idx)]], stored at the frame's float32 dtype. *)
Fixpoint fill_f1_rows (report : report_dict) (index : list nat)
    (df : list f1_row) : Py.result (list f1_row) :=
  match index with
  | [] => Py.Ok df
  | idx :: rest =>
      let k := pretty idx in
      e1 ← Py.getitem report k;
      p ← Py.getitem e1 "precision";
      e2 ← Py.getitem report k;
      r ← Py.getitem e2 "recall";
      e3 ← Py.getitem report k;
      f ← Py.getitem e3 "f1-score";
      fill_f1_rows report rest
        (<[idx := (Float.to_float32 p, Float.to_float32 r,
                   Float.to_float32 f)]> df)
  end.

Definition f1_frame (report : report_dict) : Py.result (list f1_row) :=
  fill_f1_rows report (seq 0 18) empty_f1_frame.

Definition f1_csv (df : list f1_row) : content :=
  Csv ["precision"; "recall"; "f1"]
      ((fun '(p, r, f) => [CFloat p; CFloat r; CFloat f]) <$> df).

Definition save_f1_result (epoch : Z) (report : report_dict)
    (dir_model : string) (save_best : bool) (w : world) : Py.result world :=
  df_f1_rslt ← f1_frame report;
  if save_best then
    Py.Ok (write_file (dir_model ++ "/f1_result.csv") (f1_csv df_f1_rslt) w)
  else
    Py.Ok (write_file (dir_model ++ "/f1_result_epoch_" ++ pretty epoch
                         ++ ".csv") (f1_csv df_f1_rslt) w).

(** ** Paths, glob and the regular expression of increment_path

    Paths are strings; [path_norm] brings one to the form pathlib prints.
    They are taken free of glob and regular-expression metacharacters, so
    that [glob] treats them literally and the pattern [stem(\d+)] reads
    the stem literally, and they name an entry other than the root or the
    current directory.  Digits are the ASCII ones. *)

Definition is_slash (c : ascii) : bool := Ascii.eqb c "/".
Definition is_dot (c : ascii) : bool := Ascii.eqb c ".".

Definition is_digit (c : ascii) : bool :=
  (48 <=? nat_of_ascii c)%nat && (nat_of_ascii c <=? 57)%nat.

Fixpoint has_slash (s : string) : bool :=
  match s with
  | EmptyString => false
  | String c r => is_slash c || has_slash r
  end.

(** [strip_prefix p s] is what follows [p] in [s] when [s] starts with [p]. *)
Fixpoint strip_prefix (p s : string) : option string :=
  match p with
  | EmptyString => Some s
  | String a p' =>
      match s with
      | EmptyString => None
      | String b s' => if Ascii.eqb a b then strip_prefix p' s' else None
      end
  end.

(** [Path(p).name]: the component after the last slash. *)
Fixpoint path_name (p : string) : string :=
  match p with
  | EmptyString => EmptyString
  | String c r =>
      if has_slash r then path_name r
      else if is_slash c then r else p
  end.

(** [name.rfind('.')]. *)
Fixpoint rfind_dot (s : string) : option nat :=
  match s with
  | EmptyString => None
  | String c r =>
      match rfind_dot r with
      | Some i => Some (S i)
      | None => if is_dot c then Some 0%nat else None
      end
  end.

(** [Path(p).stem]: the name without its last suffix; a dot in first or
    last position starts no suffix. *)
Definition path_stem (p : string) : string :=
  let name := path_name p in
  match rfind_dot name with
  | Some i =>
      if (0 <? i)%nat && (i <? String.length name - 1)%nat
      then substring 0 i name else name
  | None => name
  end.

(** [str(Path(p))]: empty and dot components go, and with them doubled
    and trailing slashes; what is left of nothing is the dot. *)
Fixpoint split_slash (s : string) : list string :=
  match s with
  | EmptyString => [EmptyString]
  | String c r =>
      if is_slash c then EmptyString :: split_slash r
      else match split_slash r with
           | h :: t => String c h :: t
           | [] => [String c EmptyString]
           end
  end.

Definition keep_component (c : string) : bool :=
  negb (String.eqb c "") && negb (String.eqb c ".").

Definition path_norm (p : string) : string :=
  let comps := List.filter keep_component (split_slash p) in
  let root := match p with
              | String c _ => if is_slash c then "/" else ""
              | EmptyString => ""
              end in
  let s := root ++ String.concat "/" comps in
  if String.eqb s "" then "." else s.

Definition path_exists (fs : gmap string node) (p : string) : bool :=
  bool_decide (is_Some (fs !! p)).

(** [glob.glob(f"{path}*")]: the existing entries of the same directory
    whose name starts with the name of [path]; the star crosses no slash. *)
Definition glob_match (path d : string) : bool :=
  match strip_prefix path d with
  | Some rest => negb (has_slash rest)
  | None => false
  end.

Definition glob_star (fs : gmap string node) (path : string) : list string :=
  filter (fun d => glob_match path d = true) (map_to_list fs).*1.

(** The longest run of digits at the head of a string: what [\d+] takes. *)
Fixpoint take_digits (s : string) : string :=
  match s with
  | EmptyString => EmptyString
  | String c r => if is_digit c then String c (take_digits r) else EmptyString
  end.

(** The pattern [stem(\d+)] tried at the head of [d]: the captured group. *)
Definition match_here (stem d : string) : option string :=
  match strip_prefix stem d with
  | Some rest =>
      match take_digits rest with
      | EmptyString => None
      | ds => Some ds
      end
  | None => None
  end.

(** [re.search]: the leftmost position of [d] at which the pattern
    matches, wherever in the string that is. *)
Fixpoint re_search (stem d : string) : option string :=
  match match_here stem d with
  | Some g => Some g
  | None =>
      match d with
      | EmptyString => None
      | String _ r => re_search stem r
      end
  end.

Definition digit_value (c : ascii) : Z := Z.of_nat (nat_of_ascii c) - 48.

(** [int(ds)] on a string of digits. *)
Fixpoint int_of_digits_from (acc : Z) (ds : string) : Z :=
  match ds with
  | EmptyString => acc
  | String c r => int_of_digits_from (acc * 10 + digit_value c) r
  end.

Definition int_of_digits (ds : string) : Z := int_of_digits_from 0 ds.

(** [max(i)] on a list with head [x]. *)
Definition py_max (x : Z) (r : list Z) : Z := foldl Z.max x r.

Definition increment_path (fs : gmap string node) (path : string)
    (exist_ok : bool) : string :=
  let path := path_norm path in
  if (path_exists fs path && exist_ok) || negb (path_exists fs path)
  then path
  else
    let dirs := glob_star fs path in
    let matches := re_search (path_stem path) <$> dirs in
    let i := omap (fmap int_of_digits) matches in
    let n := match i with
             | [] => 2
             | x :: r => py_max x r + 1
             end%Z in
    path ++ pretty n.

(** The incrementer in the words of its description: among the entries of
    the directory, those named by the base name followed by a numeric
    suffix count; the result carries the largest suffix plus one, or 2
    when there is none. *)
Definition all_digits (s : string) : bool :=
  negb (String.eqb s "") && String.eqb (take_digits s) s.

Definition numeric_suffix (path d : string) : option Z :=
  match strip_prefix path d with
  | Some rest => if all_digits rest then Some (int_of_digits rest) else None
  | None => None
  end.

Definition increment_path_described (fs : gmap string node) (path : string)
    (exist_ok : bool) : string :=
  let path := path_norm path in
  if negb (path_exists fs path) || exist_ok then path
  else
    match omap (numeric_suffix path) (map_to_list fs).*1 with
    | [] => path ++ pretty 2%Z
    | x :: r => path ++ pretty (py_max x r + 1)%Z
    end.

(** [os.path.join(a, b)]. *)
Definition ends_with_slash (a : string) : bool :=
  match String.rev a with
  | String c _ => is_slash c
  | EmptyString => false
  end.

Definition os_path_join (a b : string) : string :=
  match b with
  | String c _ =>
      if is_slash c then b
      else if String.eqb a "" || ends_with_slash a then a ++ b
      else a ++ "/" ++ b
  | EmptyString =>
      if String.eqb a "" || ends_with_slash a then a else a ++ "/"
  end.

(** ** train *)

Record Args : Type := mkArgs {
  seed : Z;
  epochs : Z;
  dataset : string;
  batch_size : Z;
  valid_batch_size : Z;
  optimizer : string;
  lr : Float.t;
  val_ratio : Float.t;
  criterion : string;
  lr_decay_step : Z;
  log_interval : Z;
  name : string;
  data_dir : string;
  model_dir : string
}.

(** What one training batch hands to the bookkeeping that follows the
    optimizer step: [loss.item()] and [(preds == labels).sum().item()]. *)
Record batch : Type := mkBatch {
  loss_item : Float.t;
  n_correct : Z
}.

(** What one epoch hands to the code after its two passes over the data:
    the training batches in loader order, the weights the model then has,
    and the validation pass's aggregates. *)
Record epoch_data : Type := mkEpoch {
  train_batches : list batch;
  weights : state_dict;
  val_loss : Float.t;
  val_acc : Float.t;
  val_f1 : Float.t;
  report : report_dict;
  tot_val_labels : list Z;
  tot_val_preds : list Z
}.

(** What one fold's data set and loaders supply. *)
Record fold_data : Type := mkFold {
  num_classes : Z;
  epoch_at : nat -> epoch_data
}.

Record best : Type := mkBest {
  best_val_acc : Float.t;
  best_val_loss : Float.t;
  best_f1 : Float.t
}.

Definition init_best : best := mkBest Float.zero Float.inf Float.zero.

(** The batch loop of one epoch from batch [idx] on, with the running
    [loss_value] and [matches]. *)
Fixpoint train_loop (args : Args) (epoch len_loader idx : Z)
    (bs : list batch) (loss_value : Float.t) (matches : Z) (w : world)
    : Py.result (Float.t * Z * world) :=
  match bs with
  | [] => Py.Ok (loss_value, matches, w)
  | b :: rest =>
      let loss_value := Float.add loss_value (loss_item b) in
      let matches := (matches + n_correct b)%Z in
      r ← py_mod (idx + 1) (log_interval args);
      if (r =? 0)%Z then
        train_loss ← Float.div_int loss_value (log_interval args);
        per_batch ← Float.int_truediv matches (batch_size args);
        train_acc ← Float.div_int per_batch (log_interval args);
        let w := add_scalar "Train/loss" train_loss
                   (epoch * len_loader + idx) w in
        let w := add_scalar "Train/accuracy" train_acc
                   (epoch * len_loader + idx) w in
        train_loop args epoch len_loader (idx + 1) rest Float.zero 0 w
      else
        train_loop args epoch len_loader (idx + 1) rest loss_value matches w
  end.

(** The code after the validation loop. *)
Definition validate (save_dir : string) (epoch : Z) (d : epoch_data)
    (b : best) (w : world) : Py.result (best * world) :=
  bw ←
    (if Float.gtb (val_f1 d) (best_f1 b) then
       let w := torch_save (weights d) (save_dir ++ "/best.pth") w in
       let b := mkBest (val_acc d) (val_loss d) (val_f1 d) in
       w ← save_f1_result epoch (report d) save_dir true w;
       w ← save_best_val_pred (tot_val_labels d) (tot_val_preds d)
             save_dir w;
       Py.Ok (b, w)
     else Py.Ok (b, w));
  let w := torch_save (weights d) (save_dir ++ "/last.pth") bw.2 in
  let w := add_scalar "Val/loss" (val_loss d) epoch w in
  let w := add_scalar "Val/accuracy" (val_acc d) epoch w in
  Py.Ok (bw.1, w).

Definition run_epoch (args : Args) (save_dir : string) (epoch : Z)
    (d : epoch_data) (b : best) (w : world) : Py.result (best * world) :=
  let len_loader := Z.of_nat (length (train_batches d)) in
  lw ← train_loop args epoch len_loader 0 (train_batches d) Float.zero 0 w;
  validate save_dir epoch d b lw.2.

(** [for epoch in range(...)], from epoch number [epoch] on. *)
Fixpoint run_epochs (args : Args) (save_dir : string) (epoch : Z)
    (ds : list epoch_data) (b : best) (w : world)
    : Py.result (best * world) :=
  match ds with
  | [] => Py.Ok (b, w)
  | d :: rest =>
      bw ← run_epoch args save_dir epoch d b w;
      run_epochs args save_dir (epoch + 1) rest bw.1 bw.2
  end.

(** [SummaryWriter(log_dir=...)] makes the directory unless it is there. *)
Definition summary_writer (log_dir : string) (w : world) : world :=
  if path_exists (fs w) log_dir then w
  else mkWorld (<[log_dir := Dir]> (fs w)) (trace w).

(** The model each fold trains. *)
Definition fold_model : Py.result pyval := select_model "efficientnet" 18.

Definition fold_epochs (args : Args) (f : fold_data) : list epoch_data :=
  epoch_at f <$> seq 0 (Z.to_nat (epochs args)).

(** The body of the loop over the folds. *)
Definition run_fold (model_dir : string) (args : Args) (f : fold_data)
    (w : world) : Py.result world :=
  let save_dir :=
    increment_path (fs w) (os_path_join model_dir (name args)) false in
  model ← fold_model;
  let w := emit (SelectedModel model) w in
  let w := summary_writer save_dir w in
  let w := write_file (os_path_join save_dir "config.json") ConfigJson w in
  bw ← run_epochs args save_dir 0 (fold_epochs args f) init_best w;
  Py.Ok bw.2.

Fixpoint run_folds (model_dir : string) (args : Args)
    (folds : list fold_data) (w : world) : Py.result world :=
  match folds with
  | [] => Py.Ok w
  | f :: rest =>
      w ← run_fold model_dir args f w;
      run_folds model_dir args rest w
  end.

(** [train(data_dir, model_dir, args)]; [fold_at i] is what the data set
    built for [cv=i] supplies. *)
Definition train (data_dir model_dir : string) (args : Args)
    (fold_at : nat -> fold_data) (w : world) : Py.result world :=
  run_folds model_dir args (fold_at <$> seq 0 5) w.

(** ** Observations on a trace *)

(** The successive contents written to [path]. *)
Definition writes_to (path : string) (tr : list event) : list content :=
  omap (fun e => match e with
                 | Wrote p c => if String.eqb p path then Some c else None
                 | _ => None
                 end) tr.

(** The successive values logged under [tag], with their steps. *)
Definition scalars (tag : string) (tr : list event) : list (Float.t * Z) :=
  omap (fun e => match e with
                 | AddScalar t v s =>
                     if String.eqb t tag then Some (v, s) else None
                 | _ => None
                 end) tr.

(** The models the folds constructed. *)
Definition selected_models (tr : list event) : list pyval :=
  omap (fun e => match e with SelectedModel m => Some m | _ => None end) tr.

(** The paths of the files written, in order. *)
Definition written_paths (tr : list event) : list string :=
  omap (fun e => match e with Wrote p _ => Some p | _ => None end) tr.

(** ** The artifacts of a fold and the epochs that set them *)

Definition best_pth (save_dir : string) : string := save_dir ++ "/best.pth".
Definition last_pth (save_dir : string) : string := save_dir ++ "/last.pth".
Definition f1_result_csv (save_dir : string) : string :=
  save_dir ++ "/f1_result.csv".
Definition pred_result_csv (save_dir : string) : string :=
  save_dir ++ "/pred_result.csv".

(** The true/predicted table of an epoch's validation pass. *)
Definition pred_csv (d : epoch_data) : content :=
  Csv ["true"; "pred"]
      (zip_with (fun t p => [CInt t; CInt p])
                (tot_val_labels d) (tot_val_preds d)).

(** The values the [best_*] variables take from an epoch. *)
Definition best_of (d : epoch_data) : best :=
  mkBest (val_acc d) (val_loss d) (val_f1 d).

(** [d]'s validation F1 strictly exceeds that of every epoch of [ds]. *)
Definition exceeds_previous (ds : list epoch_data) (d : epoch_data) : Prop :=
  forall d', d' ∈ ds -> Float.ltb (val_f1 d') (val_f1 d) = true.

(** ... and is above the 0 at which [best_f1] starts. *)
Definition new_best (ds : list epoch_data) (d : epoch_data) : Prop :=
  exceeds_previous ds d /\ Float.ltb Float.zero (val_f1 d) = true.

(** [d] is the earliest epoch of [ds] that attains the largest validation
    F1 of [ds], and that F1 is positive. *)
Definition first_maximum (ds : list epoch_data) (d : epoch_data) : Prop :=
  exists l1 l2 : list epoch_data,
    ds = (l1 ++ d :: l2)%list /\
    exceeds_previous l1 d /\
    (forall d', d' ∈ l2 -> Float.ltb (val_f1 d) (val_f1 d') = false) /\
    Float.ltb Float.zero (val_f1 d) = true.

(** The three best artifacts on disk are those of epoch [d]. *)
Definition best_artifacts_of (save_dir : string) (d : epoch_data)
    (w : world) : Prop :=
  fs w !! best_pth save_dir = Some (File (Checkpoint (weights d))) /\
  (exists df, f1_frame (report d) = Py.Ok df /\
              fs w !! f1_result_csv save_dir = Some (File (f1_csv df))) /\
  fs w !! pred_result_csv save_dir = Some (File (pred_csv d)).

(** Nothing was written to the three best artifacts between [w0] and [w]. *)
Definition best_artifacts_untouched (save_dir : string) (w0 w : world) : Prop :=
  forall p, p = best_pth save_dir \/ p = f1_result_csv save_dir \/
            p = pred_result_csv save_dir ->
    fs w !! p = fs w0 !! p /\ writes_to p (trace w) = writes_to p (trace w0).

(** The policy in the words of its description, for the epoch [d] that
    follows the epochs [ds] of a fold: the best checkpoint is overwritten
    exactly when [d]'s F1 strictly exceeds that of every previous epoch. *)
Definition best_policy_described (args : Args) (save_dir : string)
    (ds : list epoch_data) (d : epoch_data) (w0 : world) : Prop :=
  forall b w b' w',
    run_epochs args save_dir 0 ds init_best w0 = Py.Ok (b, w) ->
    run_epoch args save_dir (Z.of_nat (length ds)) d b w = Py.Ok (b', w') ->
    (exceeds_previous ds d <->
     writes_to (best_pth save_dir) (trace w') =
       (writes_to (best_pth save_dir) (trace w) ++ [Checkpoint (weights d)])%list).

(** ** Sample data *)

Definition one_half : Float.t := Float.div (Float.of_int 1) (Float.of_int 2).
Definition one_third : Float.t := Float.div (Float.of_int 1) (Float.of_int 3).

(** A report with the same value in every cell of the classes 0 to 17. *)
Definition uniform_report (v : Float.t) : report_dict :=
  list_to_map
    ((fun i : nat =>
        (pretty i,
         ({[ "precision" := v; "recall" := v; "f1-score" := v ]}
            : gmap string Float.t))) <$> seq 0 18).

Definition sample_weights (x : Float.t) : state_dict := {[ "_fc.bias" := [x] ]}.

Definition sample_batches : list batch :=
  [mkBatch one_half 3; mkBatch one_third 4; mkBatch one_half 5].

(** An epoch whose validation scored [f1], with accuracy [acc] and loss
    [loss]. *)
Definition sample_epoch (f1 acc loss : Float.t) : epoch_data :=
  mkEpoch sample_batches (sample_weights f1) loss acc f1
          (uniform_report f1) [1; 2]%Z [1; 3]%Z.

Definition sample_args : Args :=
  mkArgs 42 2 "MaskSplitByProfileDataset" 64 64 "Adam" one_half one_half
         "label_smoothing" 10 2 "ensem" "data" "./model".

Definition sample_fold : fold_data :=
  mkFold 3 (fun e => match e with
                     | 0%nat => sample_epoch one_third one_half one_third
                     | _ => sample_epoch one_half one_third one_half
                     end).

Definition empty_world : world := mkWorld ∅ [].

(** Projection of a successful outcome, for stating examples. *)
Definition ok_or {A : Type} (default : A) (r : Py.result A) : A :=
  match r with
  | Py.Ok a => a
  | Py.Raise _ => default
  end.

(** The state of a fold after the epochs [ds], started in world [w0]:
    either no epoch scored above 0 and the [best_*] variables and the best
    artifacts are as they were at the start, or they are those of the
    earliest epoch with the largest F1. *)
Definition fold_invariant (save_dir : string) (ds : list epoch_data)
    (w0 : world) (b : best) (w : world) : Prop :=
  ((forall d', d' ∈ ds -> Float.ltb Float.zero (val_f1 d') = false) /\
   b = init_best /\ best_artifacts_untouched save_dir w0 w)
  \/
  (exists d, first_maximum ds d /\ b = best_of d /\
             best_artifacts_of save_dir d w).

Definition f1_numbers (ds : list epoch_data) : Prop :=
  forall d, d ∈ ds -> Float.is_nan (val_f1 d) = false.

(** The [best_*] variables are at their initial values, no epoch having
    scored above 0, or they are the three values of one epoch whose F1 no
    epoch of [ds] exceeds. *)
Definition holds_best_epoch (ds : list epoch_data) (b : best) : Prop :=
  (b = init_best /\
   forall d, d ∈ ds -> Float.gtb (val_f1 d) Float.zero = false)
  \/
  (exists d, d ∈ ds /\ b = best_of d /\
             forall d', d' ∈ ds -> Float.gtb (val_f1 d') (val_f1 d) = false).

(** An epoch whose validation F1 is 0. *)
Definition zero_epoch : epoch_data :=
  sample_epoch Float.zero one_half one_third.

(** Two epochs: the second has the better F1, the first the better
    accuracy and loss. *)
Definition two_epochs : list epoch_data :=
  [sample_epoch one_third one_half one_third;
   sample_epoch one_half one_third one_half].

(** ** The windows of the batch loop *)

(** The running sums as the loop computes them over the batches [win],
    from zero and from left to right. *)
Definition sum_loss (win : list batch) : Float.t :=
  foldl (fun acc b => Float.add acc (loss_item b)) Float.zero win.

Definition sum_matches (win : list batch) : Z :=
  foldl (fun acc b => (acc + n_correct b)%Z) 0%Z win.

(** The two scalars logged at batch [idx] for the batches [win]
    aggregated since the previous log. *)
Definition log_events (args : Args) (epoch len_loader idx : Z)
    (win : list batch) : list event :=
  [AddScalar "Train/loss"
     (Float.div (sum_loss win) (Float.of_int (log_interval args)))
     (epoch * len_loader + idx);
   AddScalar "Train/accuracy"
     (Float.div
        (Float.div (Float.of_int (sum_matches win))
                   (Float.of_int (batch_size args)))
        (Float.of_int (log_interval args)))
     (epoch * len_loader + idx)].

(** The logs of consecutive windows of [n] batches each, the first of
    which starts at batch [start]: window [j] is logged when its last
    batch, the one of index [start + (j + 1) * n - 1], has been
    processed. *)
Definition windows_log (args : Args) (epoch len_loader start n : Z)
    (wins : list (list batch)) : list event :=
  concat (imap (fun j win =>
                  log_events args epoch len_loader
                    (start + (Z.of_nat j + 1) * n - 1) win) wins).

(** ** The per-class table and the report it is filled from *)

(** The three values the report holds for class [i]. *)
Definition report_row (report : report_dict) (i : nat) : option f1_row :=
  e ← report !! pretty i;
  p ← e !! "precision";
  r ← e !! "recall";
  f ← e !! "f1-score";
  Some (p, r, f).

(** The report covers the classes 0 to 17. *)
Definition covers_classes (report : report_dict) : Prop :=
  forall i : nat, (i < 18)%nat -> is_Some (report_row report i).

Definition row_to_float32 (row : f1_row) : f1_row :=
  let '(p, r, f) := row in
  (Float.to_float32 p, Float.to_float32 r, Float.to_float32 f).

(** The table in the words of its description: 18 rows, row [i] with the
    report's values for class [i] as they are. *)
Definition f1_table_described (report : report_dict) : Prop :=
  exists df,
    f1_frame report = Py.Ok df /\
    length df = 18%nat /\
    forall i : nat, (i < 18)%nat -> df !! i = report_row report i.

(** The row stored for class [i], NaN where the report has none. *)
Definition stored_row (report : report_dict) (i : nat) : f1_row :=
  default nan_row (row_to_float32 <$> report_row report i).

(** ** Sample directories *)

(** A run directory [ensem1] in which two folds have already made their
    directories. *)
Definition ensem1_fs : gmap string node :=
  list_to_map [("ensem1", Dir); ("ensem1/ensem", Dir);
               ("ensem1/ensem2", Dir)].

(** A directory [exp1] holding the base path [exp1/exp] and its siblings
    suffixed 0 to 5. *)
Definition exp1_fs : gmap string node :=
  list_to_map [("exp1", Dir); ("exp1/exp", Dir); ("exp1/exp0", Dir);
               ("exp1/exp1", Dir); ("exp1/exp2", Dir); ("exp1/exp3", Dir);
               ("exp1/exp4", Dir); ("exp1/exp5", Dir)].

(** The same siblings under a parent whose name has no digit. *)
Definition runs_fs : gmap string node :=
  list_to_map [("runs", Dir); ("runs/exp", Dir); ("runs/exp0", Dir);
               ("runs/exp1", Dir); ("runs/exp2", Dir); ("runs/exp3", Dir);
               ("runs/exp4", Dir); ("runs/exp5", Dir)].

(** A string of digits only. *)
Definition digits_only (s : string) : Prop :=
  take_digits s = s /\ has_slash s = false.


(** ** Further observations and sample data *)

(** The per-epoch file of [save_f1_result] when it is not asked for the
    best one. *)
Definition f1_result_epoch_csv (dir_model : string) (epoch : Z) : string :=
  dir_model ++ "/f1_result_epoch_" ++ pretty epoch ++ ".csv".


(** A report like [uniform_report], with the summary entries that sklearn
    adds beside the classes. *)
Definition report_with_summaries (v : Float.t) : report_dict :=
  <["macro avg" := {[ "precision" := Float.zero ]}]>
    (<["weighted avg" := {[ "precision" := Float.zero ]}]>
       (uniform_report v)).

(** A report that lacks class 7. *)
Definition report_without_7 : report_dict :=
  delete "7" (uniform_report one_half).


(** ** The directories of the folds *)






(** An epoch whose validation F1 is not a number. *)
Definition nan_epoch : epoch_data :=
  sample_epoch Float.nan one_half one_third.

(** * Properties *)

(** ** The model selector *)

Lemma nn_Linear_ok (i o : Z) :
  (0 <= i)%Z -> (0 <= o)%Z ->
  Torch.nn_Linear i o = Py.Ok (Torch.mkLinear i o).
Proof.
  intros Hi Ho. unfold Torch.nn_Linear.
  destruct (Z.ltb_spec i 0); [lia|].
  destruct (Z.ltb_spec o 0); [lia|]. reflexivity.
Qed.

(** X2: the three branches that name the attribute their network's
    forward pass uses do replace the head: for densenet161, shufflenet and
    efficientnet the network returned emits the class count asked for. *)
Lemma select_model_head_replaced (model : string) (n : Z) :
  (0 <= n)%Z ->
  model = "densenet161" \/ model = "shufflenet" \/ model = "efficientnet" ->
  selected_logits (select_model model n) = Some n.
Proof.
  intros Hn [-> | [-> | ->]]; unfold select_model; cbn -[Torch.nn_Linear].
  - rewrite nn_Linear_ok by lia. reflexivity.
  - rewrite nn_Linear_ok by lia. reflexivity.
  - unfold Torch.EfficientNet_b0_from_pretrained.
    rewrite nn_Linear_ok by lia. reflexivity.
Qed.

(** The resnet18 branch registers its new layer as [classifier], which the
    network's forward pass never calls: whatever the count asked for, the
    logits stay those of the pretrained [fc]. *)
Lemma select_model_resnet18_logits (n : Z) :
  (0 <= n)%Z -> selected_logits (select_model "resnet18" n) = Some 1000%Z.
Proof.
  intros Hn. unfold select_model; cbn -[Torch.nn_Linear].
  rewrite nn_Linear_ok by lia. reflexivity.
Qed.

(** C3: for every recognized identifier the selector should return a
    network whose head emits the requested number of logits.  For
    ['resnet18'] and 18 classes it does not: the pretrained [fc] with its
    1000 outputs is still the head, and the 18-way layer sits unused under
    [classifier]. *)
Theorem select_model_resnet18_head_not_replaced :
  recognized "resnet18" /\
  selected_logits (select_model "resnet18" 18) = Some 1000%Z /\
  selected_logits (select_model "resnet18" 18) <> Some 18%Z /\
  exists m, select_model "resnet18" 18 = Py.Ok (PyModule m) /\
            Torch.attrs m !! "fc" = Some (Torch.mkLinear 512 1000) /\
            Torch.attrs m !! "classifier" = Some (Torch.mkLinear 1024 18).
Proof.
  split; [left; reflexivity|].
  split; [reflexivity|].
  split; [discriminate|].
  eexists. split; [reflexivity|]. split; reflexivity.
Qed.

Lemma not_recognized_eqb (model : string) :
  ~ recognized model ->
  String.eqb model "resnet18" = false /\
  String.eqb model "densenet161" = false /\
  String.eqb model "shufflenet" = false /\
  String.eqb model "efficientnet" = false.
Proof.
  unfold recognized. intros H.
  repeat split; apply String.eqb_neq; intros ->; apply H; tauto.
Qed.

(** C4, as stated, fails: for the unrecognized identifier ['vgg16'] the
    selector does not return None. *)
Lemma select_model_vgg16_not_None :
  ~ recognized "vgg16" /\ select_model "vgg16" 18 <> Py.Ok PyNone.
Proof.
  split.
  - unfold recognized. intros [H | [H | [H | H]]]; discriminate H.
  - discriminate.
Qed.

(** C4, amended: for every identifier that is not one of the recognized
    ones, no branch assigns [model_], and the return statement raises
    UnboundLocalError on reading it; no value is returned, None or other. *)
Theorem select_model_unrecognized_raises (model : string) (n : Z) :
  ~ recognized model ->
  select_model model n = Py.Raise (Py.UnboundLocalError "model_").
Proof.
  intros H. destruct (not_recognized_eqb model H) as (H1 & H2 & H3 & H4).
  unfold select_model. rewrite H1, H2, H3, H4. reflexivity.
Qed.

Lemma select_model_unrecognized_raises_witness :
  ~ recognized "vgg16" /\
  select_model "vgg16" 18 = Py.Raise (Py.UnboundLocalError "model_").
Proof.
  split.
  - unfold recognized. intros [H | [H | [H | H]]]; discriminate H.
  - apply (select_model_unrecognized_raises "vgg16" 18).
    unfold recognized. intros [H | [H | [H | H]]]; discriminate H.
Defined.

(** ** Order facts on floats *)

Ltac cmp_cases :=
  repeat match goal with
  | |- context [Pos.compare_cont Eq ?a ?b] =>
      change (Pos.compare_cont Eq a b) with (Pos.compare a b)
  | H : context [Pos.compare_cont Eq ?a ?b] |- _ =>
      change (Pos.compare_cont Eq a b) with (Pos.compare a b) in H
  | |- context [Z.compare ?a ?b] => destruct (Z.compare_spec a b)
  | H : context [Z.compare ?a ?b] |- _ => destruct (Z.compare_spec a b)
  | |- context [Pos.compare ?a ?b] => destruct (Pos.compare_spec a b)
  | H : context [Pos.compare ?a ?b] |- _ => destruct (Pos.compare_spec a b)
  end.

Ltac float_order :=
  unfold Float.gtb, Float.ltb, Float.zero, SFltb, SFcompare;
  simpl; try discriminate; try reflexivity;
  cmp_cases; simpl; subst; try discriminate; try reflexivity; try lia.

Lemma ltb_trans (a b c : Float.t) :
  Float.ltb a b = true -> Float.ltb b c = true -> Float.ltb a c = true.
Proof.
  destruct a as [[]|[]| |[] ma ea], b as [[]|[]| |[] mb eb],
           c as [[]|[]| |[] mc ec]; float_order.
Qed.

Lemma ltb_irrefl (a : Float.t) : Float.ltb a a = false.
Proof. destruct a as [[]|[]| |[] ma ea]; float_order. Qed.

(** [b <= a < c] gives [b < c] when [b] is a number. *)
Lemma ltb_le_lt (a b c : Float.t) :
  Float.is_nan b = false ->
  Float.ltb a b = false -> Float.ltb a c = true -> Float.ltb b c = true.
Proof.
  destruct a as [[]|[]| |[] ma ea], b as [[]|[]| |[] mb eb],
           c as [[]|[]| |[] mc ec]; float_order.
Qed.

Lemma ltb_not_nan_l (a b : Float.t) :
  Float.ltb a b = true -> Float.is_nan a = false.
Proof. destruct a as [[]|[]| |[] ma ea]; try reflexivity. float_order. Qed.

(** ** Traces and files under the operations of an epoch *)

Ltac bind_cases H :=
  cbv beta iota delta [mbind result_bind Py.bind] in H;
  repeat match type of H with
  | match ?r with Py.Ok _ => _ | Py.Raise _ => _ end = _ =>
      let E := fresh "E" in destruct r eqn:E; [| discriminate H]
  end.

Lemma eqb_app_l (s a b : string) :
  String.eqb (s ++ a) (s ++ b) = String.eqb a b.
Proof.
  destruct (String.eqb_spec a b) as [-> | Hne].
  - apply String.eqb_refl.
  - apply String.eqb_neq. intros H. apply Hne.
    induction s as [|c s IH]; [exact H|].
    apply IH. injection H as H. exact H.
Qed.

Lemma writes_to_app (p : string) (t1 t2 : list event) :
  writes_to p (t1 ++ t2) = (writes_to p t1 ++ writes_to p t2)%list.
Proof. apply omap_app. Qed.

Lemma selected_models_app (t1 t2 : list event) :
  selected_models (t1 ++ t2) = (selected_models t1 ++ selected_models t2)%list.
Proof. apply omap_app. Qed.

Lemma scalars_app (tag : string) (t1 t2 : list event) :
  scalars tag (t1 ++ t2) = (scalars tag t1 ++ scalars tag t2)%list.
Proof. apply omap_app. Qed.

(** The batch loop logs scalars and nothing else: no file is written. *)
Lemma train_loop_frame (args : Args) (epoch len : Z) (bs : list batch) :
  forall idx lv m w lv' m' w',
    train_loop args epoch len idx bs lv m w = Py.Ok (lv', m', w') ->
    fs w' = fs w /\
    (forall p, writes_to p (trace w') = writes_to p (trace w)) /\
    selected_models (trace w') = selected_models (trace w).
Proof.
  induction bs as [|b bs IH]; intros idx lv m w lv' m' w' H.
  - cbn in H. injection H as <- <- <-. auto.
  - cbn [train_loop] in H. bind_cases H.
    destruct (a =? 0)%Z.
    + bind_cases H. apply IH in H. destruct H as (Hfs & Hw & Hs).
      split; [exact Hfs|]. split.
      * intros p. rewrite Hw. unfold add_scalar, emit. cbn [trace].
        rewrite !writes_to_app. cbn. rewrite !app_nil_r. reflexivity.
      * rewrite Hs. unfold add_scalar, emit. cbn [trace].
        rewrite !selected_models_app. cbn. rewrite !app_nil_r. reflexivity.
    + apply IH in H. exact H.
Qed.

Lemma save_f1_result_best_inv (epoch : Z) (report : report_dict)
    (dir : string) (w w' : world) :
  save_f1_result epoch report dir true w = Py.Ok w' ->
  exists df, f1_frame report = Py.Ok df /\
             w' = write_file (f1_result_csv dir) (f1_csv df) w.
Proof.
  unfold save_f1_result. intros H. bind_cases H.
  injection H as <-. eauto.
Qed.

Lemma save_best_val_pred_inv (d : epoch_data) (dir : string) (w w' : world) :
  save_best_val_pred (tot_val_labels d) (tot_val_preds d) dir w = Py.Ok w' ->
  w' = write_file (pred_result_csv dir) (pred_csv d) w.
Proof.
  unfold save_best_val_pred. intros H.
  destruct (negb _); [discriminate H|]. injection H as <-. reflexivity.
Qed.

(** What the code after the validation loop does, branch by branch. *)
Lemma validate_inv (save_dir : string) (epoch : Z) (d : epoch_data)
    (b b' : best) (w w' : world) :
  validate save_dir epoch d b w = Py.Ok (b', w') ->
  (Float.gtb (val_f1 d) (best_f1 b) = true /\
   b' = best_of d /\
   exists df, f1_frame (report d) = Py.Ok df /\
     w' = add_scalar "Val/accuracy" (val_acc d) epoch
           (add_scalar "Val/loss" (val_loss d) epoch
             (torch_save (weights d) (last_pth save_dir)
               (write_file (pred_result_csv save_dir) (pred_csv d)
                 (write_file (f1_result_csv save_dir) (f1_csv df)
                   (torch_save (weights d) (best_pth save_dir) w))))))
  \/
  (Float.gtb (val_f1 d) (best_f1 b) = false /\
   b' = b /\
   w' = add_scalar "Val/accuracy" (val_acc d) epoch
         (add_scalar "Val/loss" (val_loss d) epoch
           (torch_save (weights d) (last_pth save_dir) w))).
Proof.
  unfold validate. intros H.
  destruct (Float.gtb (val_f1 d) (best_f1 b)) eqn:Hgt.
  - left. split; [reflexivity|]. bind_cases H. bind_cases E.
    apply save_f1_result_best_inv in E0 as (df & Hdf & ->).
    apply save_best_val_pred_inv in E1 as ->.
    injection E as <-. injection H as <- <-. cbn [fst snd].
    split; [reflexivity|]. exists df. split; [exact Hdf|reflexivity].
  - right. split; [reflexivity|]. bind_cases H.
    cbn [fst snd] in H. injection H as <- <-. auto.
Qed.

Lemma app_str_ne (s a b : string) : a <> b -> s ++ a <> s ++ b.
Proof.
  intros Hne H. apply (f_equal (String.eqb (s ++ a))) in H.
  rewrite String.eqb_refl, eqb_app_l in H.
  symmetry in H. apply String.eqb_eq in H. contradiction.
Qed.

(** Observations of the world a validation leaves: unfold the writes,
    split the trace, and decide the comparisons of artifact names. *)
Ltac obs :=
  unfold add_scalar, emit, torch_save, write_file,
         best_pth, last_pth, f1_result_csv, pred_result_csv;
  cbn [trace fs];
  repeat rewrite writes_to_app;
  unfold writes_to; cbn [omap option_bind mbind list_omap];
  repeat rewrite eqb_app_l; cbn [String.eqb Ascii.eqb Bool.eqb];
  repeat rewrite String.eqb_refl;
  repeat rewrite app_nil_r.

Ltac fs_lookup :=
  unfold add_scalar, emit, torch_save, write_file,
         best_pth, last_pth, f1_result_csv, pred_result_csv;
  cbn [trace fs];
  repeat first
    [ rewrite lookup_insert_eq
    | rewrite lookup_insert_ne by (apply app_str_ne; discriminate) ].

Lemma run_epoch_inv (args : Args) (save_dir : string) (epoch : Z)
    (d : epoch_data) (b b' : best) (w w' : world) :
  run_epoch args save_dir epoch d b w = Py.Ok (b', w') ->
  exists w1,
    fs w1 = fs w /\
    (forall p, writes_to p (trace w1) = writes_to p (trace w)) /\
    selected_models (trace w1) = selected_models (trace w) /\
    validate save_dir epoch d b w1 = Py.Ok (b', w').
Proof.
  unfold run_epoch. intros H. bind_cases H.
  destruct a as [[lv m] w1]. apply train_loop_frame in E.
  destruct E as (Hfs & Hw & Hs). exists w1. auto.
Qed.

Lemma run_epoch_improved (args : Args) (save_dir : string) (epoch : Z)
    (d : epoch_data) (b b' : best) (w w' : world) :
  run_epoch args save_dir epoch d b w = Py.Ok (b', w') ->
  Float.gtb (val_f1 d) (best_f1 b) = true ->
  b' = best_of d /\
  best_artifacts_of save_dir d w' /\
  writes_to (best_pth save_dir) (trace w') =
    (writes_to (best_pth save_dir) (trace w) ++ [Checkpoint (weights d)])%list /\
  (exists df, f1_frame (report d) = Py.Ok df /\
     writes_to (f1_result_csv save_dir) (trace w') =
       (writes_to (f1_result_csv save_dir) (trace w) ++ [f1_csv df])%list) /\
  writes_to (pred_result_csv save_dir) (trace w') =
    (writes_to (pred_result_csv save_dir) (trace w) ++ [pred_csv d])%list.
Proof.
  intros H Hgt. apply run_epoch_inv in H as (w1 & Hfs & Hw & _ & H).
  apply validate_inv in H as [(_ & -> & df & Hdf & ->) | (Hgt' & _)];
    [|congruence].
  split; [reflexivity|]. split; [|split; [|split]].
  - unfold best_artifacts_of. split; [|split].
    + fs_lookup. reflexivity.
    + exists df. split; [exact Hdf|]. fs_lookup. reflexivity.
    + fs_lookup. reflexivity.
  - rewrite <- Hw. obs. reflexivity.
  - exists df. split; [exact Hdf|]. rewrite <- Hw. obs. reflexivity.
  - rewrite <- Hw. obs. reflexivity.
Qed.

Lemma run_epoch_not_improved (args : Args) (save_dir : string) (epoch : Z)
    (d : epoch_data) (b b' : best) (w w' : world) :
  run_epoch args save_dir epoch d b w = Py.Ok (b', w') ->
  Float.gtb (val_f1 d) (best_f1 b) = false ->
  b' = b /\ best_artifacts_untouched save_dir w w'.
Proof.
  intros H Hgt. apply run_epoch_inv in H as (w1 & Hfs & Hw & _ & H).
  apply validate_inv in H as [(Hgt' & _) | (_ & -> & ->)]; [congruence|].
  split; [reflexivity|].
  intros p [-> | [-> | ->]]; rewrite <- Hw, <- Hfs; split;
    first [ fs_lookup; reflexivity | obs; reflexivity ].
Qed.

Lemma run_epoch_last (args : Args) (save_dir : string) (epoch : Z)
    (d : epoch_data) (b b' : best) (w w' : world) :
  run_epoch args save_dir epoch d b w = Py.Ok (b', w') ->
  fs w' !! last_pth save_dir = Some (File (Checkpoint (weights d))) /\
  writes_to (last_pth save_dir) (trace w') =
    (writes_to (last_pth save_dir) (trace w) ++ [Checkpoint (weights d)])%list.
Proof.
  intros H. apply run_epoch_inv in H as (w1 & Hfs & Hw & _ & H).
  apply validate_inv in H as [(_ & _ & df & _ & ->) | (_ & _ & ->)];
    rewrite <- Hw; split;
    first [ fs_lookup; reflexivity | obs; reflexivity ].
Qed.

(** ** The epochs of a fold *)

Lemma run_epochs_snoc (args : Args) (save_dir : string) (ds : list epoch_data)
    (d : epoch_data) :
  forall epoch b w b' w',
    run_epochs args save_dir epoch (ds ++ [d]) b w = Py.Ok (b', w') <->
    exists b1 w1,
      run_epochs args save_dir epoch ds b w = Py.Ok (b1, w1) /\
      run_epoch args save_dir (epoch + Z.of_nat (length ds)) d b1 w1
        = Py.Ok (b', w').
Proof.
  induction ds as [|d0 ds IH]; intros epoch b w b' w'.
  - cbn [app run_epochs length]. rewrite Z.add_0_r. split.
    + intros H. exists b, w. split; [reflexivity|]. bind_cases H.
      destruct a as [b2 w2]. cbn in H. congruence.
    + intros (b1 & w1 & H1 & H2). injection H1 as <- <-.
      rewrite H2. reflexivity.
  - cbn [app run_epochs length]. split.
    + intros H. bind_cases H. destruct a as [b2 w2]. cbn [fst snd] in H.
      apply IH in H as (b1 & w1 & H1 & H2). exists b1, w1.
      cbv beta iota delta [mbind result_bind Py.bind]. cbn [fst snd].
      split; [exact H1|].
      replace (epoch + Z.of_nat (S (length ds)))%Z
        with (epoch + 1 + Z.of_nat (length ds))%Z by lia.
      exact H2.
    + intros (b1 & w1 & H1 & H2). bind_cases H1.
      destruct a as [b2 w2]. cbn [fst snd] in H1.
      cbv beta iota delta [mbind result_bind Py.bind]. cbn [fst snd].
      apply IH. exists b1, w1. split; [exact H1|].
      replace (epoch + 1 + Z.of_nat (length ds))%Z
        with (epoch + Z.of_nat (S (length ds)))%Z by lia.
      exact H2.
Qed.

Lemma untouched_refl (save_dir : string) (w : world) :
  best_artifacts_untouched save_dir w w.
Proof. intros p _. auto. Qed.

Lemma untouched_trans (save_dir : string) (w0 w1 w2 : world) :
  best_artifacts_untouched save_dir w0 w1 ->
  best_artifacts_untouched save_dir w1 w2 ->
  best_artifacts_untouched save_dir w0 w2.
Proof.
  intros H1 H2 p Hp. destruct (H1 p Hp) as [A B], (H2 p Hp) as [C D].
  split; congruence.
Qed.

Lemma untouched_keeps (save_dir : string) (d : epoch_data) (w w' : world) :
  best_artifacts_untouched save_dir w w' ->
  best_artifacts_of save_dir d w -> best_artifacts_of save_dir d w'.
Proof.
  intros H (A & (df & Hdf & B) & C). unfold best_artifacts_of.
  rewrite (proj1 (H (best_pth save_dir) ltac:(auto))).
  rewrite (proj1 (H (f1_result_csv save_dir) ltac:(auto))).
  rewrite (proj1 (H (pred_result_csv save_dir) ltac:(auto))).
  eauto.
Qed.

(** In a fold's state, the test [val_f1 > best_f1] is the test for an F1
    above every previous one and above 0. *)
Lemma improves_iff_new_best (save_dir : string) (ds : list epoch_data)
    (d : epoch_data) (w0 : world) (b : best) (w : world) :
  f1_numbers ds ->
  fold_invariant save_dir ds w0 b w ->
  Float.gtb (val_f1 d) (best_f1 b) = true <-> new_best ds d.
Proof.
  intros Hnum [(Hzero & -> & _) | (dj & Hmax & -> & _)];
    unfold new_best, exceeds_previous, Float.gtb; cbn [best_f1 init_best best_of].
  - split.
    + intros Hgt. split; [|exact Hgt]. intros d' Hd'.
      apply (ltb_le_lt Float.zero); auto.
    + intros [_ H]. exact H.
  - destruct Hmax as (l1 & l2 & -> & Hl1 & Hl2 & Hpos). split.
    + intros Hgt. split.
      * intros d' Hd'. apply elem_of_app in Hd' as [Hd' | Hd'].
        -- eapply ltb_trans; [apply Hl1; exact Hd' | exact Hgt].
        -- apply elem_of_cons in Hd' as [-> | Hd']; [exact Hgt|].
           apply (ltb_le_lt (val_f1 dj)); auto.
           apply Hnum. apply elem_of_app. right. apply elem_of_cons. auto.
      * eapply ltb_trans; [exact Hpos | exact Hgt].
    + intros [H _]. apply H. apply elem_of_app. right.
      apply elem_of_cons. auto.
Qed.

(** One more epoch keeps the invariant. *)
Lemma fold_invariant_step (args : Args) (save_dir : string) (epoch : Z)
    (ds : list epoch_data) (d : epoch_data) (w0 : world)
    (b b' : best) (w w' : world) :
  f1_numbers ds ->
  fold_invariant save_dir ds w0 b w ->
  run_epoch args save_dir epoch d b w = Py.Ok (b', w') ->
  fold_invariant save_dir (ds ++ [d]) w0 b' w'.
Proof.
  intros Hnum Hinv Hrun.
  destruct (Float.gtb (val_f1 d) (best_f1 b)) eqn:Hgt.
  - pose proof (proj1 (improves_iff_new_best _ _ _ _ _ _ Hnum Hinv) Hgt)
      as [Hex Hpos].
    apply run_epoch_improved in Hrun as (-> & Hart & _); [|exact Hgt].
    right. exists d. split; [|auto].
    exists ds, []. split; [reflexivity|]. split; [exact Hex|].
    split; [|exact Hpos]. intros d' Hd'. apply elem_of_nil in Hd' as [].
  - apply run_epoch_not_improved in Hrun as (-> & Hun); [|exact Hgt].
    destruct Hinv as [(Hzero & -> & Hun0) | (dj & Hmax & -> & Hart)].
    + left. split; [|split; [reflexivity|]].
      * intros d' Hd'. apply elem_of_app in Hd' as [Hd' | Hd']; [auto|].
        apply list_elem_of_singleton in Hd' as ->. exact Hgt.
      * eapply untouched_trans; eassumption.
    + right. exists dj. split; [|split; [reflexivity|]].
      * destruct Hmax as (l1 & l2 & -> & Hl1 & Hl2 & Hpos).
        exists l1, (l2 ++ [d])%list. split.
        { rewrite <- app_assoc. reflexivity. }
        split; [exact Hl1|]. split; [|exact Hpos].
        intros d' Hd'. apply elem_of_app in Hd' as [Hd' | Hd']; [auto|].
        apply list_elem_of_singleton in Hd' as ->. exact Hgt.
      * eapply untouched_keeps; eassumption.
Qed.

Lemma run_epochs_invariant (args : Args) (save_dir : string)
    (ds : list epoch_data) (w0 : world) :
  forall b w,
    f1_numbers ds ->
    run_epochs args save_dir 0 ds init_best w0 = Py.Ok (b, w) ->
    fold_invariant save_dir ds w0 b w.
Proof.
  induction ds as [|d ds IH] using rev_ind; intros b w Hnum H.
  - cbn in H. injection H as <- <-. left.
    split; [|split; [reflexivity | apply untouched_refl]].
    intros d' Hd'. apply elem_of_nil in Hd' as [].
  - apply run_epochs_snoc in H as (b1 & w1 & H1 & H2).
    assert (Hnum' : f1_numbers ds).
    { intros d' Hd'. apply Hnum. apply elem_of_app. auto. }
    eapply fold_invariant_step; [exact Hnum' | | exact H2].
    apply IH; assumption.
Qed.

(** ** The checkpoint policy *)

(** C2, as stated, fails: a first epoch whose validation F1 is 0 exceeds
    every previous epoch's F1, there being none, and yet writes no best
    checkpoint. *)
Lemma best_policy_described_fails_at_zero :
  ~ best_policy_described sample_args "model/ensem" [] zero_epoch empty_world.
Proof.
  intros H.
  pose (r := ok_or (init_best, empty_world)
               (run_epoch sample_args "model/ensem" 0 zero_epoch
                          init_best empty_world)).
  specialize (H init_best empty_world r.1 r.2).
  destruct H as [H _]; [reflexivity | vm_compute; reflexivity |].
  assert (Hex : exceeds_previous [] zero_epoch).
  { intros d' Hd'. apply elem_of_nil in Hd' as []. }
  specialize (H Hex). vm_compute in H. discriminate H.
Qed.

(** C2, amended: after an epoch's validation the best checkpoint and the
    two diagnostic tables are overwritten exactly when the epoch's F1
    strictly exceeds that of every previous epoch of the fold and is
    above 0, the value at which the running best starts.  Hence after any
    number of epochs the best artifacts are those of the earliest epoch
    with the largest F1 so far, or are untouched while no F1 was above 0,
    and the error-analysis tables are written only on a new best. *)
Theorem best_artifacts_policy (args : Args) (save_dir : string)
    (ds : list epoch_data) (d : epoch_data) (w0 : world)
    (b b' : best) (w w' : world) :
  f1_numbers ds ->
  run_epochs args save_dir 0 ds init_best w0 = Py.Ok (b, w) ->
  run_epoch args save_dir (Z.of_nat (length ds)) d b w = Py.Ok (b', w') ->
  (new_best ds d ->
     best_artifacts_of save_dir d w' /\
     writes_to (best_pth save_dir) (trace w') =
       (writes_to (best_pth save_dir) (trace w)
          ++ [Checkpoint (weights d)])%list /\
     (exists df, f1_frame (report d) = Py.Ok df /\
        writes_to (f1_result_csv save_dir) (trace w') =
          (writes_to (f1_result_csv save_dir) (trace w)
             ++ [f1_csv df])%list) /\
     writes_to (pred_result_csv save_dir) (trace w') =
       (writes_to (pred_result_csv save_dir) (trace w)
          ++ [pred_csv d])%list) /\
  (~ new_best ds d -> best_artifacts_untouched save_dir w w') /\
  fold_invariant save_dir (ds ++ [d]) w0 b' w'.
Proof.
  intros Hnum Hrun Hstep.
  pose proof (run_epochs_invariant _ _ _ _ _ _ Hnum Hrun) as Hinv.
  pose proof (improves_iff_new_best _ _ d _ _ _ Hnum Hinv) as Hiff.
  split; [|split].
  - intros Hnew. apply Hiff in Hnew.
    destruct (run_epoch_improved _ _ _ _ _ _ _ _ Hstep Hnew)
      as (_ & Hart & Hb & Hf & Hp).
    auto.
  - intros Hnot.
    destruct (Float.gtb (val_f1 d) (best_f1 b)) eqn:Hgt.
    + exfalso. apply Hnot. apply Hiff. reflexivity.
    + apply (run_epoch_not_improved _ _ _ _ _ _ _ _ Hstep Hgt).
  - eapply fold_invariant_step; eassumption.
Qed.

Lemma best_artifacts_policy_witness :
  let ds := [sample_epoch one_third one_half one_third] in
  let d := sample_epoch one_half one_third one_half in
  let r1 := ok_or (init_best, empty_world)
              (run_epochs sample_args "model/ensem" 0 ds init_best
                          empty_world) in
  let r2 := ok_or (init_best, empty_world)
              (run_epoch sample_args "model/ensem" 1 d r1.1 r1.2) in
  f1_numbers ds /\
  fold_invariant "model/ensem" (ds ++ [d]) empty_world r2.1 r2.2.
Proof.
  intros ds d r1 r2.
  assert (Hnum : f1_numbers ds).
  { intros e He. apply list_elem_of_singleton in He as ->. reflexivity. }
  split; [exact Hnum|].
  apply (best_artifacts_policy sample_args "model/ensem" ds d empty_world
           r1.1 r2.1 r1.2 r2.2 Hnum).
  - vm_compute. reflexivity.
  - vm_compute. reflexivity.
Defined.

(** C6: every epoch of a fold saves the current weights to last.pth after
    its validation, whatever the epoch's F1 and whatever the best so far:
    over the epochs [ds] the file is written once per epoch, in order, each
    time with that epoch's weights, and it ends as the last epoch's. *)
Theorem last_checkpoint_every_epoch (args : Args) (save_dir : string)
    (ds : list epoch_data) :
  forall epoch b w b' w',
    run_epochs args save_dir epoch ds b w = Py.Ok (b', w') ->
    writes_to (last_pth save_dir) (trace w') =
      (writes_to (last_pth save_dir) (trace w)
         ++ ((fun d => Checkpoint (weights d)) <$> ds))%list /\
    forall d, list.last ds = Some d ->
      fs w' !! last_pth save_dir = Some (File (Checkpoint (weights d))).
Proof.
  induction ds as [|d0 ds IH]; intros epoch b w b' w' H.
  - cbn in H. injection H as <- <-. cbn. rewrite app_nil_r.
    split; [reflexivity|]. intros d Hd. discriminate Hd.
  - cbn [run_epochs] in H. bind_cases H. destruct a as [b1 w1].
    cbn [fst snd] in H.
    destruct (run_epoch_last _ _ _ _ _ _ _ _ E) as [Hfs Hw].
    destruct (IH _ _ _ _ _ H) as [IHw IHfs]. split.
    + rewrite IHw, Hw. cbn [fmap list_fmap]. rewrite <- app_assoc.
      reflexivity.
    + intros d Hd. destruct ds as [|d1 ds].
      * cbn in Hd. injection Hd as <-. cbn in H. injection H as <- <-.
        exact Hfs.
      * apply IHfs. exact Hd.
Qed.

Lemma last_checkpoint_every_epoch_witness :
  let r := ok_or (init_best, empty_world)
             (run_epochs sample_args "model/ensem" 0 two_epochs init_best
                         empty_world) in
  writes_to (last_pth "model/ensem") (trace r.2) =
    (writes_to (last_pth "model/ensem") (trace empty_world)
       ++ ((fun d => Checkpoint (weights d)) <$> two_epochs))%list /\
  forall d, list.last two_epochs = Some d ->
    fs r.2 !! last_pth "model/ensem" = Some (File (Checkpoint (weights d))).
Proof.
  intros r.
  apply (last_checkpoint_every_epoch sample_args "model/ensem" two_epochs
           0 init_best empty_world r.1 r.2).
  vm_compute. reflexivity.
Defined.

Lemma holds_best_epoch_step (args : Args) (save_dir : string) (epoch : Z)
    (ds : list epoch_data) (d : epoch_data) (b b' : best) (w w' : world) :
  holds_best_epoch ds b ->
  run_epoch args save_dir epoch d b w = Py.Ok (b', w') ->
  holds_best_epoch (ds ++ [d]) b'.
Proof.
  intros Hb Hrun.
  destruct (Float.gtb (val_f1 d) (best_f1 b)) eqn:Hgt.
  - apply run_epoch_improved in Hrun as (-> & _); [|exact Hgt].
    right. exists d. split; [apply elem_of_app; right; apply elem_of_cons; auto|].
    split; [reflexivity|]. intros d' Hd'.
    apply elem_of_app in Hd' as [Hd' | Hd'].
    + destruct (Float.gtb (val_f1 d') (val_f1 d)) eqn:Hd; [|reflexivity].
      unfold Float.gtb in *.
      destruct Hb as [(-> & Hz) | (dj & _ & -> & Hj)].
      * rewrite <- (Hz d' Hd'). symmetry. eapply ltb_trans; eassumption.
      * rewrite <- (Hj d' Hd'). symmetry. eapply ltb_trans; eassumption.
    + apply list_elem_of_singleton in Hd' as ->. apply ltb_irrefl.
  - apply run_epoch_not_improved in Hrun as (-> & _); [|exact Hgt].
    destruct Hb as [(-> & Hz) | (dj & Hin & -> & Hj)].
    + left. split; [reflexivity|]. intros d' Hd'.
      apply elem_of_app in Hd' as [Hd' | Hd']; [auto|].
      apply list_elem_of_singleton in Hd' as ->. exact Hgt.
    + right. exists dj. split; [apply elem_of_app; auto|].
      split; [reflexivity|]. intros d' Hd'.
      apply elem_of_app in Hd' as [Hd' | Hd']; [auto|].
      apply list_elem_of_singleton in Hd' as ->. exact Hgt.
Qed.

Lemma run_epochs_holds_best (args : Args) (save_dir : string)
    (ds : list epoch_data) (w0 : world) :
  forall b w,
    run_epochs args save_dir 0 ds init_best w0 = Py.Ok (b, w) ->
    holds_best_epoch ds b.
Proof.
  induction ds as [|d ds IH] using rev_ind; intros b w H.
  - cbn in H. injection H as <- <-. left. split; [reflexivity|].
    intros d Hd. apply elem_of_nil in Hd as [].
  - apply run_epochs_snoc in H as (b1 & w1 & H1 & H2).
    eapply holds_best_epoch_step; [|exact H2]. eapply IH. exact H1.
Qed.

(** C9: [best_val_acc] and [best_val_loss] change only in the step that
    changes [best_f1], the one taken when the epoch's F1 strictly exceeds
    the best so far, and then all three take that epoch's values.  So
    after any epochs of a fold the three are still the initial ones or are
    the accuracy, loss and F1 of one epoch, whose F1 none exceeds; they are
    not the largest accuracy and smallest loss seen, as two epochs show. *)
Theorem best_metrics_follow_best_f1 (args : Args) (save_dir : string)
    (ds : list epoch_data) (d : epoch_data) (w0 : world)
    (b b' : best) (w w' : world) :
  run_epochs args save_dir 0 ds init_best w0 = Py.Ok (b, w) ->
  run_epoch args save_dir (Z.of_nat (length ds)) d b w = Py.Ok (b', w') ->
  (if Float.gtb (val_f1 d) (best_f1 b)
   then b' = mkBest (val_acc d) (val_loss d) (val_f1 d)
   else b' = b) /\
  holds_best_epoch ds b /\
  holds_best_epoch (ds ++ [d]) b' /\
  (exists bs ws e,
     run_epochs sample_args "model/ensem" 0 two_epochs init_best empty_world
       = Py.Ok (bs, ws) /\
     e ∈ two_epochs /\
     Float.ltb (best_val_acc bs) (val_acc e) = true /\
     Float.ltb (val_loss e) (best_val_loss bs) = true).
Proof.
  intros Hrun Hstep.
  pose proof (run_epochs_holds_best _ _ _ _ _ _ Hrun) as Hb.
  split; [|split; [exact Hb|split]].
  - destruct (Float.gtb (val_f1 d) (best_f1 b)) eqn:Hgt.
    + apply (run_epoch_improved _ _ _ _ _ _ _ _ Hstep Hgt).
    + apply (run_epoch_not_improved _ _ _ _ _ _ _ _ Hstep Hgt).
  - eapply holds_best_epoch_step; eassumption.
  - pose (r := ok_or (init_best, empty_world)
                 (run_epochs sample_args "model/ensem" 0 two_epochs
                             init_best empty_world)).
    exists r.1, r.2, (sample_epoch one_third one_half one_third).
    split; [vm_compute; reflexivity|].
    split; [apply elem_of_cons; left; reflexivity|].
    split; vm_compute; reflexivity.
Qed.

Lemma best_metrics_follow_best_f1_witness :
  let ds := [sample_epoch one_third one_half one_third] in
  let d := sample_epoch one_half one_third one_half in
  let r1 := ok_or (init_best, empty_world)
              (run_epochs sample_args "model/ensem" 0 ds init_best
                          empty_world) in
  let r2 := ok_or (init_best, empty_world)
              (run_epoch sample_args "model/ensem" 1 d r1.1 r1.2) in
  holds_best_epoch ds r1.1 /\ holds_best_epoch (ds ++ [d]) r2.1.
Proof.
  intros ds d r1 r2.
  assert (H1 : run_epochs sample_args "model/ensem" 0 ds init_best
                          empty_world = Py.Ok (r1.1, r1.2))
    by (vm_compute; reflexivity).
  assert (H2 : run_epoch sample_args "model/ensem" (Z.of_nat (length ds)) d
                         r1.1 r1.2 = Py.Ok (r2.1, r2.2))
    by (vm_compute; reflexivity).
  destruct (best_metrics_follow_best_f1 sample_args "model/ensem" ds d
              empty_world r1.1 r2.1 r1.2 r2.2 H1 H2) as (_ & A & B & _).
  split; assumption.
Defined.

(** ** The folds *)

Lemma validate_selected (save_dir : string) (epoch : Z) (d : epoch_data)
    (b b' : best) (w w' : world) :
  validate save_dir epoch d b w = Py.Ok (b', w') ->
  selected_models (trace w') = selected_models (trace w).
Proof.
  intros H.
  apply validate_inv in H as [(_ & _ & df & _ & ->) | (_ & _ & ->)];
    unfold add_scalar, emit, torch_save, write_file; cbn [trace];
    rewrite !selected_models_app; cbn; rewrite !app_nil_r; reflexivity.
Qed.

Lemma run_epochs_selected (args : Args) (save_dir : string)
    (ds : list epoch_data) :
  forall epoch b w b' w',
    run_epochs args save_dir epoch ds b w = Py.Ok (b', w') ->
    selected_models (trace w') = selected_models (trace w).
Proof.
  induction ds as [|d ds IH]; intros epoch b w b' w' H.
  - cbn in H. injection H as <- <-. reflexivity.
  - cbn [run_epochs] in H. bind_cases H. destruct a as [b1 w1].
    cbn [fst snd] in H. apply IH in H. rewrite H.
    apply run_epoch_inv in E as (w2 & _ & _ & Hs & Hv).
    apply validate_selected in Hv. congruence.
Qed.

Lemma fold_model_is_b0_18 :
  exists m, fold_model = Py.Ok (PyModule m) /\
            Torch.cls m = Torch.EfficientNet /\
            Torch.num_logits m = Some 18%Z.
Proof. eexists. repeat split. Qed.

Lemma run_fold_selected (model_dir : string) (args : Args) (f : fold_data)
    (w w' : world) (m : pyval) :
  fold_model = Py.Ok m ->
  run_fold model_dir args f w = Py.Ok w' ->
  selected_models (trace w') = (selected_models (trace w) ++ [m])%list.
Proof.
  intros Hm H. unfold run_fold in H. rewrite Hm in H. bind_cases H.
  injection H as <-. destruct a as [b1 w1]. cbn [snd].
  apply run_epochs_selected in E. rewrite E.
  unfold write_file, summary_writer, emit. cbn [trace fs].
  destruct (path_exists _ _); cbn [trace];
    rewrite !selected_models_app; cbn; rewrite !app_nil_r; reflexivity.
Qed.

Lemma run_folds_selected (model_dir : string) (args : Args)
    (folds : list fold_data) (m : pyval) :
  fold_model = Py.Ok m ->
  forall w w',
    run_folds model_dir args folds w = Py.Ok w' ->
    selected_models (trace w') =
      (selected_models (trace w) ++ replicate (length folds) m)%list.
Proof.
  intros Hm. induction folds as [|f folds IH]; intros w w' H.
  - cbn in H. injection H as <-. cbn. rewrite app_nil_r. reflexivity.
  - cbn [run_folds] in H. bind_cases H. apply IH in H. rewrite H.
    rewrite (run_fold_selected _ _ _ _ _ m Hm E).
    rewrite <- app_assoc. reflexivity.
Qed.

(** C10: whatever the arguments and whatever class count the fold's data
    set reports, each of the five folds builds its model by
    [select_model('efficientnet', 18)]: an EfficientNet-b0 with 18
    logits. *)
Theorem train_model_is_hard_coded (data_dir model_dir : string) (args : Args)
    (fold_at : nat -> fold_data) (w w' : world) :
  train data_dir model_dir args fold_at w = Py.Ok w' ->
  fold_model = select_model "efficientnet" 18 /\
  exists m,
    fold_model = Py.Ok (PyModule m) /\
    Torch.cls m = Torch.EfficientNet /\
    Torch.num_logits m = Some 18%Z /\
    selected_models (trace w') =
      (selected_models (trace w) ++ replicate 5 (PyModule m))%list.
Proof.
  intros H. split; [reflexivity|].
  destruct fold_model_is_b0_18 as (m & Hm & Hc & Hl).
  exists m. repeat (split; [assumption|]).
  unfold train in H.
  apply (run_folds_selected _ _ _ _ Hm) in H. rewrite H.
  rewrite length_fmap, length_seq. reflexivity.
Qed.

Lemma train_model_is_hard_coded_witness :
  let w' := ok_or empty_world
              (train "data" "./model" sample_args (fun _ => sample_fold)
                     empty_world) in
  num_classes sample_fold = 3%Z /\
  exists m,
    fold_model = Py.Ok (PyModule m) /\
    Torch.num_logits m = Some 18%Z /\
    selected_models (trace w') = replicate 5 (PyModule m).
Proof.
  intros w'. split; [reflexivity|].
  assert (H : train "data" "./model" sample_args (fun _ => sample_fold)
                    empty_world = Py.Ok w') by (vm_compute; reflexivity).
  destruct (train_model_is_hard_coded "data" "./model" sample_args
              (fun _ => sample_fold) empty_world w' H)
    as (_ & m & Hm & _ & Hl & Hs).
  exists m. auto.
Defined.

(** ** The batch loop *)

Lemma sum_loss_snoc (cur : list batch) (b : batch) :
  sum_loss (cur ++ [b]) = Float.add (sum_loss cur) (loss_item b).
Proof. unfold sum_loss. rewrite foldl_app. reflexivity. Qed.

Lemma sum_matches_snoc (cur : list batch) (b : batch) :
  sum_matches (cur ++ [b]) = (sum_matches cur + n_correct b)%Z.
Proof. unfold sum_matches. rewrite foldl_app. reflexivity. Qed.

(** With [c] batches aggregated since the last log, [c] below the
    interval's size, the test [(idx + 1) % log_interval == 0] succeeds
    exactly when this batch completes a window. *)
Lemma log_test_iff (L idx q c : Z) :
  (L <> 0)%Z -> (0 <= c < Z.abs L)%Z -> (idx = q * Z.abs L + c)%Z ->
  ((idx + 1) mod L = 0 <-> c + 1 = Z.abs L)%Z.
Proof.
  intros HL Hc ->. rewrite Z.mod_divide by exact HL.
  rewrite <- Z.divide_abs_l. split.
  - intros Hd.
    assert (Hd' : (Z.abs L | c + 1)%Z).
    { replace (c + 1)%Z with ((q * Z.abs L + c + 1) - q * Z.abs L)%Z by lia.
      apply Z.divide_sub_r; [exact Hd|]. apply Z.divide_factor_r. }
    apply Z.divide_pos_le in Hd'; lia.
  - intros Heq.
    replace (q * Z.abs L + c + 1)%Z with ((q + 1) * Z.abs L)%Z by lia.
    apply Z.divide_factor_r.
Qed.

Lemma windows_log_cons (args : Args) (epoch len start n : Z)
    (win : list batch) (wins : list (list batch)) :
  windows_log args epoch len start n (win :: wins) =
    (log_events args epoch len (start + n - 1) win
       ++ windows_log args epoch len (start + n) n wins)%list.
Proof.
  unfold windows_log. cbn [imap concat]. f_equal.
  - f_equal. lia.
  - f_equal. apply imap_ext. intros j x _. cbn. f_equal. lia.
Qed.

(** The loop from batch [idx] on, when the batches [cur] have been
    aggregated since the last log. *)
Lemma train_loop_windows (args : Args) (epoch len : Z) (bs : list batch) :
  forall idx q cur w lv' m' w',
    (log_interval args <> 0)%Z ->
    (Z.of_nat (length cur) < Z.abs (log_interval args))%Z ->
    (idx = q * Z.abs (log_interval args) + Z.of_nat (length cur))%Z ->
    train_loop args epoch len idx bs (sum_loss cur) (sum_matches cur) w
      = Py.Ok (lv', m', w') ->
    exists wins tail,
      (cur ++ bs = concat wins ++ tail)%list /\
      Forall (fun win => Z.of_nat (length win) = Z.abs (log_interval args))
             wins /\
      (Z.of_nat (length tail) < Z.abs (log_interval args))%Z /\
      trace w' =
        (trace w ++ windows_log args epoch len
                      (idx - Z.of_nat (length cur))
                      (Z.abs (log_interval args)) wins)%list /\
      lv' = sum_loss tail /\ m' = sum_matches tail.
Proof.
  induction bs as [|b bs IH]; intros idx q cur w lv' m' w' HL Hc Hidx H.
  - cbn in H. injection H as <- <- <-. exists [], cur.
    cbn. rewrite !app_nil_r. repeat split; auto.
  - cbn [train_loop] in H. unfold py_mod in H.
    destruct (Z.eqb_spec (log_interval args) 0) as [|_]; [contradiction|].
    cbv beta iota delta [mbind result_bind Py.bind] in H.
    rewrite <- sum_loss_snoc, <- sum_matches_snoc in H.
    pose proof (log_test_iff (log_interval args) idx q
                  (Z.of_nat (length cur)) HL ltac:(lia) Hidx) as Htest.
    destruct (Z.eqb_spec ((idx + 1) mod log_interval args) 0) as [Hz|Hnz].
    + apply Htest in Hz.
      unfold Float.div_int, Float.int_truediv in H.
      destruct (Z.eqb_spec (log_interval args) 0) as [|_]; [contradiction|].
      destruct (Z.eqb_spec (batch_size args) 0) as [|_]; [discriminate H|].
      change Float.zero with (sum_loss []) in H.
      change 0%Z with (sum_matches []) in H at 1.
      apply (IH (idx + 1)%Z (q + 1)%Z []) in H; [|exact HL|cbn; lia|cbn; lia].
      destruct H as (wins & tail & Hcat & Hall & Htail & Htr & -> & ->).
      exists ((cur ++ [b]) :: wins)%list, tail.
      split; [|split; [|split; [exact Htail|split; [|auto]]]].
      * cbn [concat]. rewrite <- !app_assoc. cbn in Hcat. rewrite <- Hcat.
        reflexivity.
      * constructor; [|exact Hall]. rewrite length_app. cbn. lia.
      * rewrite Htr. unfold add_scalar, emit. cbn [trace length].
        rewrite windows_log_cons. rewrite <- !app_assoc. f_equal.
        unfold log_events. cbn [app].
        replace (idx - Z.of_nat (length cur)
                 + Z.abs (log_interval args) - 1)%Z with idx by lia.
        f_equal. f_equal. f_equal. lia.
    + assert (Hlt : (Z.of_nat (length cur) + 1 < Z.abs (log_interval args))%Z).
      { destruct (Z.eq_dec (Z.of_nat (length cur) + 1)%Z
                           (Z.abs (log_interval args))) as [He|He]; [|lia].
        apply Htest in He. contradiction. }
      apply (IH (idx + 1)%Z q (cur ++ [b])%list) in H;
        [|exact HL|rewrite length_app; cbn; lia|rewrite length_app; cbn; lia].
      destruct H as (wins & tail & Hcat & Hall & Htail & Htr & -> & ->).
      exists wins, tail. rewrite <- app_assoc in Hcat.
      split; [exact Hcat|]. split; [exact Hall|]. split; [exact Htail|].
      split; [|auto]. rewrite Htr. f_equal. f_equal.
      rewrite length_app. cbn. lia.
Qed.

Lemma scalars_windows_log_loss (args : Args) (epoch len n : Z)
    (wins : list (list batch)) :
  forall start,
    scalars "Train/loss" (windows_log args epoch len start n wins) =
      imap (fun j win =>
              (Float.div (sum_loss win) (Float.of_int (log_interval args)),
               epoch * len + (start + (Z.of_nat j + 1) * n - 1))%Z) wins.
Proof.
  induction wins as [|win wins IH]; intros start; [reflexivity|].
  rewrite windows_log_cons, scalars_app, IH. cbn [imap]. cbn.
  f_equal.
  - f_equal. f_equal. lia.
  - apply imap_ext. intros j x _. cbn. f_equal. f_equal. lia.
Qed.

Lemma scalars_windows_log_acc (args : Args) (epoch len n : Z)
    (wins : list (list batch)) :
  forall start,
    scalars "Train/accuracy" (windows_log args epoch len start n wins) =
      imap (fun j win =>
              (Float.div
                 (Float.div (Float.of_int (sum_matches win))
                            (Float.of_int (batch_size args)))
                 (Float.of_int (log_interval args)),
               epoch * len + (start + (Z.of_nat j + 1) * n - 1))%Z) wins.
Proof.
  induction wins as [|win wins IH]; intros start; [reflexivity|].
  rewrite windows_log_cons, scalars_app, IH. cbn [imap]. cbn.
  f_equal.
  - f_equal. f_equal. lia.
  - apply imap_ext. intros j x _. cbn. f_equal. f_equal. lia.
Qed.


(** C7: in the training loop of an epoch, loss and accuracy are logged
    exactly when the number of processed batches is a positive multiple
    of the log interval: the batches split into consecutive windows of
    that many batches and a shorter rest, window [j] is logged at its last
    batch, of index [(j + 1) * |interval| - 1], and nothing else is logged.
    The sums restart from zero after each log, so the logged loss and
    accuracy of a window aggregate its batches alone, and the sums left at
    the end are those of the rest. *)
Theorem train_loop_logs_per_window (args : Args) (epoch : Z)
    (bs : list batch) (w : world) (lv : Float.t) (m : Z) (w' : world) :
  train_loop args epoch (Z.of_nat (length bs)) 0 bs Float.zero 0 w
    = Py.Ok (lv, m, w') ->
  exists wins tail,
    (bs = concat wins ++ tail)%list /\
    Forall (fun win => Z.of_nat (length win) = Z.abs (log_interval args))
           wins /\
    (bs = [] \/ (Z.of_nat (length tail) < Z.abs (log_interval args))%Z) /\
    trace w' =
      (trace w ++ windows_log args epoch (Z.of_nat (length bs)) 0
                    (Z.abs (log_interval args)) wins)%list /\
    scalars "Train/loss" (trace w') =
      (scalars "Train/loss" (trace w) ++
       imap (fun j win =>
               (Float.div (sum_loss win)
                          (Float.of_int (log_interval args)),
                epoch * Z.of_nat (length bs)
                + ((Z.of_nat j + 1) * Z.abs (log_interval args) - 1))%Z)
            wins)%list /\
    scalars "Train/accuracy" (trace w') =
      (scalars "Train/accuracy" (trace w) ++
       imap (fun j win =>
               (Float.div
                  (Float.div (Float.of_int (sum_matches win))
                             (Float.of_int (batch_size args)))
                  (Float.of_int (log_interval args)),
                epoch * Z.of_nat (length bs)
                + ((Z.of_nat j + 1) * Z.abs (log_interval args) - 1))%Z)
            wins)%list /\
    lv = sum_loss tail /\ m = sum_matches tail.
Proof.
  intros H.
  destruct (Z.eq_dec (log_interval args) 0%Z) as [HL0|HL].
  - destruct bs as [|b bs].
    + cbn in H. injection H as <- <- <-. exists [], [].
      cbn. rewrite !app_nil_r. repeat split; auto.
    + cbn [train_loop] in H. unfold py_mod in H. rewrite HL0 in H.
      discriminate H.
  - change Float.zero with (sum_loss []) in H.
    change 0%Z with (sum_matches []) in H at 2.
    apply (train_loop_windows args epoch _ bs 0%Z 0%Z []) in H;
      [|exact HL|cbn; lia|cbn; lia].
    destruct H as (wins & tail & Hcat & Hall & Htail & Htr & -> & ->).
    cbn [app length] in Hcat, Htr. rewrite Z.sub_0_r in Htr.
    exists wins, tail. split; [exact Hcat|]. split; [exact Hall|].
    split; [right; exact Htail|]. split; [exact Htr|].
    split; [|split; [|auto]].
    + rewrite Htr, scalars_app, scalars_windows_log_loss. reflexivity.
    + rewrite Htr, scalars_app, scalars_windows_log_acc. reflexivity.
Qed.

Lemma train_loop_logs_per_window_witness :
  let r := ok_or (Float.zero, 0%Z, empty_world)
             (train_loop sample_args 1 3 0 sample_batches Float.zero 0
                         empty_world) in
  exists wins tail,
    (sample_batches = concat wins ++ tail)%list /\
    Forall (fun win => Z.of_nat (length win) = 2%Z) wins /\
    scalars "Train/loss" (trace r.2) =
      imap (fun j win =>
              (Float.div (sum_loss win) (Float.of_int 2),
               1 * 3 + ((Z.of_nat j + 1) * 2 - 1))%Z) wins /\
    r.1.1 = sum_loss tail.
Proof.
  intros r.
  assert (H : train_loop sample_args 1 (Z.of_nat (length sample_batches)) 0
                sample_batches Float.zero 0 empty_world
              = Py.Ok (r.1.1, r.1.2, r.2)) by (vm_compute; reflexivity).
  destruct (train_loop_logs_per_window sample_args 1 sample_batches
              empty_world r.1.1 r.1.2 r.2 H)
    as (wins & tail & Hcat & Hall & _ & _ & Hl & _ & Hlv & _).
  exists wins, tail. repeat split; assumption.
Defined.

(** ** The per-class metrics table *)

Lemma getitem_Some {A : Type} (d : gmap string A) (k : string) (a : A) :
  d !! k = Some a -> Py.getitem d k = Py.Ok a.
Proof. intros H. unfold Py.getitem. rewrite H. reflexivity. Qed.

Lemma fill_f1_rows_ok (report : report_dict) (index : list nat) :
  forall df,
    (forall i, i ∈ index -> is_Some (report_row report i)) ->
    fill_f1_rows report index df =
      Py.Ok (foldl (fun d i => <[i := stored_row report i]> d) df index).
Proof.
  induction index as [|i index IH]; intros df Hcov; [reflexivity|].
  destruct (Hcov i ltac:(apply elem_of_cons; auto)) as [[[p r] f] Hrow].
  assert (Hs : stored_row report i =
               (Float.to_float32 p, Float.to_float32 r, Float.to_float32 f)).
  { unfold stored_row. rewrite Hrow. reflexivity. }
  cbn [fill_f1_rows foldl]. rewrite Hs. clear Hs.
  unfold report_row in Hrow.
  destruct (report !! pretty i) as [e|] eqn:He; [|discriminate Hrow].
  cbn in Hrow.
  destruct (e !! "precision") as [p'|] eqn:Hp; [|discriminate Hrow].
  cbn in Hrow.
  destruct (e !! "recall") as [r'|] eqn:Hr; [|discriminate Hrow].
  cbn in Hrow.
  destruct (e !! "f1-score") as [f'|] eqn:Hf; [|discriminate Hrow].
  cbn in Hrow. injection Hrow as -> -> ->.
  repeat first
    [ rewrite (getitem_Some _ _ _ He)
    | rewrite (getitem_Some _ _ _ Hp)
    | rewrite (getitem_Some _ _ _ Hr)
    | rewrite (getitem_Some _ _ _ Hf)
    | progress cbv beta iota delta [mbind result_bind Py.bind] ].
  apply IH. intros j Hj. apply Hcov. apply elem_of_cons. auto.
Qed.

Section FoldInsert.
Context {A : Type} (g : nat -> A).

Lemma foldl_insert_length (index : list nat) :
  forall l : list A,
    length (foldl (fun d i => <[i := g i]> d) l index) = length l.
Proof.
  induction index as [|i index IH]; intros l; [reflexivity|].
  cbn [foldl]. rewrite IH. apply length_insert.
Qed.

Lemma foldl_insert_other (index : list nat) (j : nat) :
  forall l : list A,
    j ∉ index ->
    foldl (fun d i => <[i := g i]> d) l index !! j = l !! j.
Proof.
  induction index as [|i index IH]; intros l Hj; [reflexivity|].
  cbn [foldl]. apply not_elem_of_cons in Hj as [Hne Hj].
  rewrite IH by exact Hj. apply list_lookup_insert_ne. congruence.
Qed.

Lemma foldl_insert_lookup (index : list nat) (j : nat) :
  forall l : list A,
    NoDup index -> j ∈ index -> (j < length l)%nat ->
    foldl (fun d i => <[i := g i]> d) l index !! j = Some (g j).
Proof.
  induction index as [|i index IH]; intros l Hnd Hj Hlen.
  - apply elem_of_nil in Hj as [].
  - cbn [foldl]. apply list.NoDup_cons in Hnd as [Hi Hnd].
    apply elem_of_cons in Hj as [-> | Hj].
    + rewrite foldl_insert_other by exact Hi.
      apply list_lookup_insert_eq. exact Hlen.
    + apply IH; [exact Hnd | exact Hj |]. rewrite length_insert. exact Hlen.
Qed.
End FoldInsert.

(** C5, as stated, fails: a report whose values are all the double
    nearest to one third covers the classes 0 to 17, and no row of the
    table holds its values as they are. *)
Lemma f1_table_described_fails_one_third :
  covers_classes (uniform_report one_third) /\
  ~ f1_table_described (uniform_report one_third).
Proof.
  split.
  - intros i Hi.
    do 18 (destruct i as [|i]; [vm_compute; eexists; reflexivity|]). lia.
  - intros (df & Hdf & _ & H).
    specialize (H 0%nat ltac:(lia)).
    vm_compute in Hdf. injection Hdf as <-.
    vm_compute in H. discriminate H.
Qed.

(** C5, amended: for every report covering the classes 0 to 17 the writer
    produces a table of exactly 18 rows, one per class in ascending index
    order, whose precision, recall and F1 cells are the report's values
    for that class rounded to single precision, the frame's dtype; they
    equal the report's values exactly when these are single-precision
    values.  That table is what is written to f1_result.csv. *)
Theorem f1_table_rows (report : report_dict) :
  covers_classes report ->
  exists df,
    f1_frame report = Py.Ok df /\
    length df = 18%nat /\
    (forall i : nat, (i < 18)%nat ->
       df !! i = row_to_float32 <$> report_row report i) /\
    (forall (i : nat) row, (i < 18)%nat ->
       report_row report i = Some row -> row_to_float32 row = row ->
       df !! i = Some row) /\
    (forall epoch dir w,
       save_f1_result epoch report dir true w =
         Py.Ok (write_file (f1_result_csv dir) (f1_csv df) w)).
Proof.
  intros Hcov.
  assert (Hall : forall i, i ∈ seq 0 18 -> is_Some (report_row report i)).
  { intros i Hi. apply elem_of_seq in Hi. apply Hcov. lia. }
  pose proof (fill_f1_rows_ok report (seq 0 18) empty_f1_frame Hall) as Hfill.
  eexists. split; [exact Hfill|].
  assert (Hrows : forall i : nat, (i < 18)%nat ->
            foldl (fun d i => <[i := stored_row report i]> d)
                  empty_f1_frame (seq 0 18) !! i
            = row_to_float32 <$> report_row report i).
  { intros i Hi.
    rewrite (foldl_insert_lookup (stored_row report)).
    - unfold stored_row. destruct (Hcov i Hi) as [row ->]. reflexivity.
    - apply NoDup_seq.
    - apply elem_of_seq. lia.
    - exact Hi. }
  split; [|split; [exact Hrows|split]].
  - rewrite foldl_insert_length. reflexivity.
  - intros i row Hi Hrow Hexact. rewrite Hrows by exact Hi.
    rewrite Hrow. cbn. rewrite Hexact. reflexivity.
  - intros epoch dir w. unfold save_f1_result, f1_frame. rewrite Hfill.
    reflexivity.
Qed.

Lemma f1_table_rows_witness :
  covers_classes (uniform_report one_half) /\
  exists df,
    f1_frame (uniform_report one_half) = Py.Ok df /\
    length df = 18%nat /\
    (forall i : nat, (i < 18)%nat ->
       df !! i = Some (one_half, one_half, one_half)).
Proof.
  assert (Hcov : covers_classes (uniform_report one_half)).
  { intros i Hi.
    do 18 (destruct i as [|i]; [vm_compute; eexists; reflexivity|]). lia. }
  split; [exact Hcov|].
  destruct (f1_table_rows (uniform_report one_half) Hcov)
    as (df & Hdf & Hlen & _ & Hexact & _).
  exists df. split; [exact Hdf|]. split; [exact Hlen|].
  intros i Hi. apply Hexact; [exact Hi| |vm_compute; reflexivity].
  do 18 (destruct i as [|i]; [vm_compute; reflexivity|]). lia.
Defined.

(** ** The path incrementer *)


Lemma py_max_spec (x : Z) (r : list Z) :
  py_max x r ∈ x :: r /\ forall y, y ∈ x :: r -> (y <= py_max x r)%Z.
Proof.
  unfold py_max. revert x. induction r as [|z r IH]; intros x.
  - cbn. split; [apply elem_of_cons; auto|].
    intros y Hy. apply list_elem_of_singleton in Hy as ->. lia.
  - cbn [foldl]. destruct (IH (Z.max x z)) as [Hin Hle]. split.
    + apply elem_of_cons in Hin as [Heq | Hin].
      * rewrite Heq. destruct (Z.max_spec x z) as [[_ ->] | [_ ->]].
        -- apply elem_of_cons. right. apply elem_of_cons. auto.
        -- apply elem_of_cons. auto.
      * apply elem_of_cons. right. apply elem_of_cons. auto.
    + intros y Hy. apply elem_of_cons in Hy as [-> | Hy].
      * specialize (Hle (Z.max x z) ltac:(apply elem_of_cons; auto)). lia.
      * apply elem_of_cons in Hy as [-> | Hy].
        -- specialize (Hle (Z.max x z) ltac:(apply elem_of_cons; auto)). lia.
        -- apply Hle. apply elem_of_cons. auto.
Qed.

(** For an existing path, without the flag: the suffix is one more than
    the largest number that the search captures in the entries the glob
    returns, or 2 when it captures none. *)
Lemma increment_path_numbered (fs : gmap string node) (path : string) :
  path_exists fs (path_norm path) = true ->
  let p := path_norm path in
  let nums := omap (fmap int_of_digits)
                   (re_search (path_stem p) <$> glob_star fs p) in
  (nums = [] /\ increment_path fs path false = p ++ "2") \/
  (exists mx, mx ∈ nums /\ (forall x, x ∈ nums -> (x <= mx)%Z) /\
              increment_path fs path false = p ++ pretty (mx + 1)%Z).
Proof.
  intros He p nums. subst p nums. unfold increment_path. cbv zeta.
  rewrite He. cbn [andb orb negb].
  destruct (omap _ _) as [|x r].
  - left. split; reflexivity.
  - right. exists (py_max x r). destruct (py_max_spec x r) as [Hin Hle].
    split; [exact Hin|]. split; [exact Hle|reflexivity].
Qed.

(** C1: for an existing base path the incrementer should return the base
    path with the largest sibling suffix plus one.  When the parent
    directory's own name is the base name followed by digits it does not:
    the search reads the parent's number out of every entry.  In [ensem1],
    holding [ensem] and [ensem2], it returns [ensem1/ensem2], which
    exists, where the description gives [ensem1/ensem3]; in [exp1],
    holding [exp] and [exp0] to [exp5], it returns [exp1/exp2], not
    [exp1/exp6]. *)
Theorem increment_path_reads_parent_number :
  path_exists ensem1_fs "ensem1/ensem" = true /\
  increment_path ensem1_fs "ensem1/ensem" false = "ensem1/ensem2" /\
  path_exists ensem1_fs "ensem1/ensem2" = true /\
  increment_path_described ensem1_fs "ensem1/ensem" false = "ensem1/ensem3" /\
  increment_path exp1_fs "exp1/exp" false = "exp1/exp2" /\
  increment_path_described exp1_fs "exp1/exp" false = "exp1/exp6" /\
  increment_path runs_fs "runs/exp" false = "runs/exp6".
Proof. repeat split; vm_compute; reflexivity. Qed.

(** The folds of one run then share a directory: under [ensem1] the
    second fold and all later ones write their configuration, and with it
    their checkpoints, into [ensem1/ensem2]. *)
Lemma train_reuses_fold_directory :
  let w' := ok_or empty_world
              (train "data" "ensem1" sample_args (fun _ => sample_fold)
                     empty_world) in
  filter (fun p => String.eqb (path_name p) "config.json" = true)
         (written_paths (trace w')) =
    ["ensem1/ensem/config.json"; "ensem1/ensem2/config.json";
     "ensem1/ensem2/config.json"; "ensem1/ensem2/config.json";
     "ensem1/ensem2/config.json"].
Proof. vm_compute. reflexivity. Qed.

(** Under the default [./model] the folds get directories of their own. *)
Lemma train_default_fold_directories :
  let w' := ok_or empty_world
              (train "data" "./model" sample_args (fun _ => sample_fold)
                     empty_world) in
  filter (fun p => String.eqb (path_name p) "config.json" = true)
         (written_paths (trace w')) =
    ["model/ensem/config.json"; "model/ensem2/config.json";
     "model/ensem3/config.json"; "model/ensem4/config.json";
     "model/ensem5/config.json"].
Proof. vm_compute. reflexivity. Qed.

(** *** Numerals *)

Lemma pretty_N_char_digit (d : N) :
  (d < 10)%N ->
  is_digit (pretty_N_char d) = true /\
  is_slash (pretty_N_char d) = false /\
  digit_value (pretty_N_char d) = Z.of_N d.
Proof.
  intros Hd.
  assert (d = 0 \/ d = 1 \/ d = 2 \/ d = 3 \/ d = 4 \/ d = 5 \/ d = 6 \/
          d = 7 \/ d = 8 \/ d = 9)%N as H by lia.
  repeat destruct H as [-> | H]; try subst d; repeat split; reflexivity.
Qed.

Lemma digits_only_cons (c : ascii) (s : string) :
  is_digit c = true -> is_slash c = false -> digits_only s ->
  digits_only (String c s).
Proof.
  intros Hc Hs [Ht Hh]. split; cbn.
  - rewrite Hc, Ht. reflexivity.
  - rewrite Hs, Hh. reflexivity.
Qed.

Lemma pretty_N_go_digits (x : N) :
  forall s, digits_only s -> digits_only (pretty_N_go x s).
Proof.
  induction (N.lt_wf_0 x) as [x _ IH]; intros s Hs.
  destruct (N.eq_dec x 0%N) as [-> | Hx].
  - rewrite pretty_N_go_0. exact Hs.
  - rewrite pretty_N_go_step by lia.
    apply IH; [apply N.div_lt; lia|].
    destruct (pretty_N_char_digit (x mod 10)) as (Hd & Hsl & _).
    { apply N.mod_lt. lia. }
    apply digits_only_cons; assumption.
Qed.

Lemma pretty_N_go_value (x : N) :
  forall s,
    int_of_digits_from 0 (pretty_N_go x s) = int_of_digits_from (Z.of_N x) s.
Proof.
  induction (N.lt_wf_0 x) as [x _ IH]; intros s.
  destruct (N.eq_dec x 0%N) as [-> | Hx].
  - rewrite pretty_N_go_0. reflexivity.
  - rewrite pretty_N_go_step by lia.
    rewrite IH by (apply N.div_lt; lia).
    cbn [int_of_digits_from].
    destruct (pretty_N_char_digit (x mod 10)) as (_ & _ & ->).
    { apply N.mod_lt. lia. }
    f_equal. rewrite (N.div_mod x 10) at 3 by lia. lia.
Qed.

Lemma pretty_N_go_nonempty (x : N) :
  forall s, s <> "" -> pretty_N_go x s <> "".
Proof.
  induction (N.lt_wf_0 x) as [x _ IH]; intros s Hs.
  destruct (N.eq_dec x 0%N) as [-> | Hx].
  - rewrite pretty_N_go_0. exact Hs.
  - rewrite pretty_N_go_step by lia.
    apply IH; [apply N.div_lt; lia | discriminate].
Qed.

(** The decimal numeral of a natural number is a non-empty string of
    digits that [int] reads back. *)
Lemma pretty_numeral (j : Z) :
  (0 <= j)%Z ->
  digits_only (pretty j) /\ pretty j <> "" /\ int_of_digits (pretty j) = j.
Proof.
  intros Hj. destruct j as [|p|p]; [| |lia].
  - repeat split; discriminate.
  - change (pretty (Z.pos p)) with (pretty_N_go (N.pos p) "").
    split; [|split].
    + apply pretty_N_go_digits. split; reflexivity.
    + rewrite pretty_N_go_step by lia.
      apply pretty_N_go_nonempty. discriminate.
    + unfold int_of_digits. rewrite pretty_N_go_value. reflexivity.
Qed.

(** *** The search on a sibling's path *)

Lemma str_app_cons (x : ascii) (a b : string) :
  String x a ++ b = String x (a ++ b).
Proof. reflexivity. Qed.


Lemma str_app_assoc (a b c : string) : (a ++ b) ++ c = a ++ (b ++ c).
Proof.
  induction a as [|x a IH]; [reflexivity|].
  rewrite !str_app_cons. f_equal. exact IH.
Qed.

Lemma str_length_app (a b : string) :
  String.length (a ++ b) = (String.length a + String.length b)%nat.
Proof.
  induction a as [|x a IH]; [reflexivity|].
  rewrite str_app_cons. cbn [String.length]. rewrite IH. reflexivity.
Qed.

Lemma strip_prefix_app_same (p r : string) : strip_prefix p (p ++ r) = Some r.
Proof.
  induction p as [|a p IH]; [reflexivity|].
  rewrite str_app_cons. cbn [strip_prefix].
  rewrite Ascii.eqb_refl. exact IH.
Qed.

Lemma strip_prefix_Some (p : string) :
  forall s r, strip_prefix p s = Some r -> s = p ++ r.
Proof.
  induction p as [|a p IH]; intros s r H; cbn in H.
  - injection H as ->. reflexivity.
  - destruct s as [|b s]; [discriminate H|].
    destruct (Ascii.eqb_spec a b) as [-> | _]; [|discriminate H].
    rewrite str_app_cons. f_equal. apply IH. exact H.
Qed.

Lemma strip_prefix_None_app (p : string) :
  forall s t,
    strip_prefix p s = None -> (String.length p <= String.length s)%nat ->
    strip_prefix p (s ++ t) = None.
Proof.
  induction p as [|a p IH]; intros s t H Hlen; cbn in H; [discriminate H|].
  destruct s as [|b s]; [cbn in Hlen; lia|].
  rewrite str_app_cons. cbn [strip_prefix].
  destruct (Ascii.eqb a b); [|reflexivity].
  apply IH; [exact H | cbn in Hlen; lia].
Qed.

Lemma take_digits_app_stop (r t : string) :
  r <> "" -> take_digits r = "" -> take_digits (r ++ t) = "".
Proof.
  destruct r as [|c r]; [congruence|]. intros _ H.
  rewrite str_app_cons. cbn [take_digits] in *.
  destruct (is_digit c); [discriminate H | reflexivity].
Qed.

(** A failed attempt at a position stays failed when the string grows,
    provided the position had a character after the stem. *)
Lemma match_here_app_None (stem s t : string) :
  match_here stem s = None ->
  (String.length stem < String.length s)%nat ->
  match_here stem (s ++ t) = None.
Proof.
  unfold match_here. intros H Hlen.
  destruct (strip_prefix stem s) as [r|] eqn:Hs.
  - pose proof (strip_prefix_Some _ _ _ Hs) as ->.
    rewrite str_app_assoc, strip_prefix_app_same.
    rewrite str_length_app in Hlen.
    destruct (take_digits r) eqn:Hr; [|discriminate H].
    rewrite take_digits_app_stop; [reflexivity| |exact Hr].
    intros ->. cbn in Hlen. lia.
  - rewrite strip_prefix_None_app; [reflexivity | exact Hs | lia].
Qed.

Lemma re_search_unfold (stem d : string) :
  re_search stem d =
    match match_here stem d with
    | Some g => Some g
    | None => match d with
              | EmptyString => None
              | String _ r => re_search stem r
              end
    end.
Proof. destruct d; reflexivity. Qed.

Lemma match_here_numeral (stem ds : string) :
  digits_only ds -> ds <> "" -> match_here stem (stem ++ ds) = Some ds.
Proof.
  intros [Hd _] Hne. unfold match_here.
  rewrite strip_prefix_app_same, Hd.
  destruct ds; [congruence | reflexivity].
Qed.

(** When the search finds nothing in the path itself, what it finds in
    the path followed by a numeral is that numeral. *)
Lemma re_search_numeral (stem ds : string) :
  digits_only ds -> ds <> "" ->
  forall pre,
    re_search stem (pre ++ stem) = None ->
    re_search stem ((pre ++ stem) ++ ds) = Some ds.
Proof.
  intros Hd Hne. induction pre as [|c pre IH]; intros H.
  - cbn [String.append]. rewrite re_search_unfold, match_here_numeral by assumption.
    reflexivity.
  - rewrite re_search_unfold in H.
    destruct (match_here stem (String c pre ++ stem)) eqn:Hm; [discriminate H|].
    cbn [String.append] in H. rewrite re_search_unfold.
    rewrite match_here_app_None; [|exact Hm|].
    + cbn [String.append]. apply IH. exact H.
    + rewrite str_app_cons. cbn [String.length].
      rewrite str_length_app. lia.
Qed.

Lemma path_name_suffix (p : string) : exists pre, p = pre ++ path_name p.
Proof.
  induction p as [|c p [pre IH]].
  - exists "". reflexivity.
  - cbn [path_name]. destruct (has_slash p).
    + exists (String c pre). rewrite str_app_cons, <- IH. reflexivity.
    + destruct (is_slash c).
      * exists (String c ""). reflexivity.
      * exists "". reflexivity.
Qed.

Lemma glob_star_elem (fs : gmap string node) (path d : string) :
  d ∈ glob_star fs path <-> is_Some (fs !! d) /\ glob_match path d = true.
Proof.
  unfold glob_star. rewrite list_elem_of_filter, list_elem_of_fmap. split.
  - intros [Hm ([d' x] & -> & Hin)]. apply elem_of_map_to_list in Hin.
    split; [|exact Hm]. cbn. eauto.
  - intros [[x Hx] Hm]. split; [exact Hm|].
    exists (d, x). split; [reflexivity|]. apply elem_of_map_to_list. exact Hx.
Qed.

Lemma glob_match_numeral (path ds : string) :
  digits_only ds -> glob_match path (path ++ ds) = true.
Proof.
  intros [_ Hs]. unfold glob_match. rewrite strip_prefix_app_same, Hs.
  reflexivity.
Qed.

(** Where the description and the code agree: the path is an existing
    one in normal form whose name has no suffix after a dot and in which
    the search itself finds no number; the entries the glob returns are
    the path and the path followed by the numerals of numbers up to [k],
    that of [k] among them.  Then the result is the path followed by the
    numeral of [k + 1]. *)
Lemma increment_path_next_sibling (fs : gmap string node) (path : string)
    (k : Z) :
  path_norm path = path ->
  path_exists fs path = true ->
  path_stem path = path_name path ->
  re_search (path_stem path) path = None ->
  (0 <= k)%Z ->
  is_Some (fs !! (path ++ pretty k)) ->
  (forall d, d ∈ glob_star fs path ->
     d = path \/ exists j : Z, (0 <= j <= k)%Z /\ d = path ++ pretty j) ->
  increment_path fs path false = path ++ pretty (k + 1)%Z.
Proof.
  intros Hnorm Hex Hstem Hnone Hk Hin Hall.
  destruct (path_name_suffix path) as [pre Hpre].
  assert (Hnum : forall j : Z, (0 <= j)%Z ->
            re_search (path_stem path) (path ++ pretty j) = Some (pretty j)).
  { intros j Hj. destruct (pretty_numeral j Hj) as (Hd & Hne & _).
    rewrite Hstem. rewrite Hpre at 2.
    apply re_search_numeral; [exact Hd | exact Hne |].
    rewrite <- Hpre, <- Hstem. exact Hnone. }
  rewrite <- Hnorm in Hex.
  destruct (increment_path_numbered fs path Hex) as [[Hnil _] | Hmax];
    rewrite Hnorm in *.
  - exfalso.
    assert (Hk' : k ∈ omap (fmap int_of_digits)
                    (re_search (path_stem path) <$> glob_star fs path)).
    { apply list_elem_of_omap. exists (Some (pretty k)). split.
      - apply list_elem_of_fmap. exists (path ++ pretty k). split.
        + symmetry. apply Hnum. exact Hk.
        + apply glob_star_elem. split; [exact Hin|].
          apply glob_match_numeral. apply pretty_numeral. exact Hk.
      - cbn. f_equal. apply pretty_numeral. exact Hk. }
    rewrite Hnil in Hk'. apply elem_of_nil in Hk' as [].
  - destruct Hmax as (mx & Hmx & Hle & ->). f_equal. f_equal. f_equal.
    assert (Hk' : (k <= mx)%Z).
    { apply Hle. apply list_elem_of_omap. exists (Some (pretty k)). split.
      - apply list_elem_of_fmap. exists (path ++ pretty k). split.
        + symmetry. apply Hnum. exact Hk.
        + apply glob_star_elem. split; [exact Hin|].
          apply glob_match_numeral. apply pretty_numeral. exact Hk.
      - cbn. f_equal. apply pretty_numeral. exact Hk. }
    apply list_elem_of_omap in Hmx as (o & Ho & Hv).
    apply list_elem_of_fmap in Ho as (d & -> & Hd).
    destruct (Hall d Hd) as [-> | (j & Hj & ->)].
    + rewrite Hnone in Hv. discriminate Hv.
    + rewrite Hnum in Hv by lia. cbn in Hv. injection Hv as <-.
      destruct (pretty_numeral j ltac:(lia)) as (_ & _ & Hval).
      rewrite Hval in *. lia.
Qed.

(** The lemma applies to [runs/exp] with its siblings 0 to 5. *)
Lemma increment_path_next_sibling_witness :
  increment_path runs_fs "runs/exp" false = "runs/exp" ++ pretty 6%Z.
Proof.
  apply (increment_path_next_sibling runs_fs "runs/exp" 5);
    try (vm_compute; reflexivity); try lia.
  - vm_compute. eexists. reflexivity.
  - intros d Hd. vm_compute in Hd.
    repeat (apply elem_of_cons in Hd as [-> | Hd]);
      try (apply elem_of_nil in Hd as []);
      first
        [ left; reflexivity
        | right; exists 0%Z; split; [lia | reflexivity]
        | right; exists 1%Z; split; [lia | reflexivity]
        | right; exists 2%Z; split; [lia | reflexivity]
        | right; exists 3%Z; split; [lia | reflexivity]
        | right; exists 4%Z; split; [lia | reflexivity]
        | right; exists 5%Z; split; [lia | reflexivity] ].
Defined.

(** ** Completion of an epoch *)



(** * Further properties *)

(** ** select_model *)

(** X1: the selector never returns None.  It returns a network only for
    the four recognized identifiers, and for each of them it does return
    one whenever the class count is not negative. *)
Theorem select_model_module_iff_recognized (model : string) (n : Z) :
  (0 <= n)%Z ->
  select_model model n <> Py.Ok PyNone /\
  ((exists m, select_model model n = Py.Ok (PyModule m)) <->
   recognized model).
Proof.
  intros Hn. split.
  - unfold select_model.
    repeat match goal with |- context [String.eqb ?a ?b] =>
      destruct (String.eqb a b) end;
      unfold Torch.EfficientNet_b0_from_pretrained;
      rewrite ?nn_Linear_ok by lia; discriminate.
  - split.
    + intros [m Hm].
      destruct (String.eqb_spec model "resnet18") as [->|H1];
        [left; reflexivity|].
      destruct (String.eqb_spec model "densenet161") as [->|H2];
        [right; left; reflexivity|].
      destruct (String.eqb_spec model "shufflenet") as [->|H3];
        [right; right; left; reflexivity|].
      destruct (String.eqb_spec model "efficientnet") as [->|H4];
        [right; right; right; reflexivity|].
      exfalso. unfold select_model in Hm.
      apply String.eqb_neq in H1, H2, H3, H4.
      rewrite H1, H2, H3, H4 in Hm. discriminate Hm.
    + intros [-> | [-> | [-> | ->]]]; unfold select_model;
        cbn -[Torch.nn_Linear];
        unfold Torch.EfficientNet_b0_from_pretrained;
        rewrite nn_Linear_ok by lia; eexists; reflexivity.
Qed.

Lemma select_model_module_iff_recognized_witness :
  (0 <= 18)%Z /\
  select_model "shufflenet" 18 <> Py.Ok PyNone /\
  ((exists m, select_model "shufflenet" 18 = Py.Ok (PyModule m)) <->
   recognized "shufflenet").
Proof.
  split; [lia|].
  apply (select_model_module_iff_recognized "shufflenet" 18). lia.
Defined.

Lemma select_model_head_replaced_witness :
  (0 <= 18)%Z /\
  selected_logits (select_model "densenet161" 18) = Some 18%Z.
Proof.
  split; [lia|].
  apply (select_model_head_replaced "densenet161" 18); [lia|].
  left. reflexivity.
Defined.

(** ** save_best_val_pred *)

(** X3: for label arrays of one length the prediction table is written
    to pred_result.csv with one row per sample, row [i] pairing the true
    and the predicted label of sample [i]; for arrays of different lengths
    the function raises ValueError and thus writes nothing. *)
Theorem save_best_val_pred_rows (y_true y_pred : list Z) (dir : string)
    (w : world) :
  (length y_true = length y_pred ->
   exists rows,
     save_best_val_pred y_true y_pred dir w =
       Py.Ok (write_file (pred_result_csv dir) (Csv ["true"; "pred"] rows) w)
     /\ length rows = length y_true
     /\ forall (i : nat) t p,
          y_true !! i = Some t -> y_pred !! i = Some p ->
          rows !! i = Some [CInt t; CInt p]) /\
  (length y_true <> length y_pred ->
   save_best_val_pred y_true y_pred dir w = Py.Raise Py.ValueError).
Proof.
  unfold save_best_val_pred. split; intros H.
  - rewrite H, Nat.eqb_refl. cbn [negb].
    eexists. split; [reflexivity|]. split.
    + rewrite length_zip_with. lia.
    + intros i t p Ht Hp. rewrite lookup_zip_with, Ht, Hp. reflexivity.
  - apply Nat.eqb_neq in H. rewrite H. reflexivity.
Qed.

Lemma save_best_val_pred_rows_witness :
  length [1; 2]%Z = length [1; 3]%Z /\
  exists rows,
    save_best_val_pred [1; 2]%Z [1; 3]%Z "model/ensem" empty_world =
      Py.Ok (write_file (pred_result_csv "model/ensem")
                        (Csv ["true"; "pred"] rows) empty_world)
    /\ rows !! 1%nat = Some [CInt 2; CInt 3].
Proof.
  split; [reflexivity|].
  destruct (save_best_val_pred_rows [1; 2]%Z [1; 3]%Z "model/ensem"
              empty_world) as [H _].
  destruct (H eq_refl) as (rows & Hs & _ & Hr).
  exists rows. split; [exact Hs|]. apply Hr; reflexivity.
Defined.

(** ** save_f1_result *)

Lemma fill_f1_rows_app (report : report_dict) (l1 l2 : list nat) :
  forall df,
    fill_f1_rows report (l1 ++ l2) df =
      (df' ← fill_f1_rows report l1 df; fill_f1_rows report l2 df').
Proof.
  induction l1 as [|i l1 IH]; intros df; [reflexivity|].
  cbn [app fill_f1_rows].
  cbv beta iota delta [mbind result_bind Py.bind].
  repeat match goal with
  | |- context [Py.getitem ?d ?k] =>
      destruct (Py.getitem d k); [|reflexivity]
  end.
  apply IH.
Qed.

Lemma getitem_None {A : Type} (d : gmap string A) (k : string) :
  d !! k = None -> Py.getitem d k = Py.Raise (Py.KeyError k).
Proof. intros H. unfold Py.getitem. rewrite H. reflexivity. Qed.

(** X4: when the report covers the classes below [i] and has no entry
    for class [i], one of the 18, the writer raises KeyError for the key
    [str(i)], whatever the later classes are; nothing is written. *)
Theorem save_f1_result_missing_class (report : report_dict) (i : nat)
    (epoch : Z) (dir : string) (save_best : bool) (w : world) :
  (i < 18)%nat ->
  (forall j : nat, (j < i)%nat -> is_Some (report_row report j)) ->
  report !! pretty i = None ->
  save_f1_result epoch report dir save_best w =
    Py.Raise (Py.KeyError (pretty i)).
Proof.
  intros Hi Hbelow Hnone. unfold save_f1_result, f1_frame.
  replace (seq 0 18) with (seq 0 i ++ i :: seq (S i) (18 - S i))%list.
  - rewrite fill_f1_rows_app, fill_f1_rows_ok.
    + cbv beta iota delta [mbind result_bind Py.bind].
      cbn [fill_f1_rows]. rewrite (getitem_None _ _ Hnone). reflexivity.
    + intros j Hj. apply elem_of_seq in Hj. apply Hbelow. lia.
  - change (i :: seq (S i) (18 - S i)) with (seq i (S (18 - S i))).
    replace i with (0 + i)%nat at 2 by lia.
    rewrite <- seq_app. f_equal. lia.
Qed.

Lemma save_f1_result_missing_class_witness :
  (7 < 18)%nat /\
  report_without_7 !! pretty 7%nat = None /\
  save_f1_result 3 report_without_7 "model/ensem" true empty_world =
    Py.Raise (Py.KeyError "7").
Proof.
  split; [lia|]. split; [vm_compute; reflexivity|].
  apply (save_f1_result_missing_class report_without_7 7 3 "model/ensem"
           true empty_world).
  - lia.
  - intros j Hj.
    do 7 (destruct j as [|j]; [vm_compute; eexists; reflexivity|]). lia.
  - vm_compute. reflexivity.
Defined.

Lemma str_app_inv_tail (t : string) :
  forall a b, a ++ t = b ++ t -> a = b.
Proof.
  assert (Hlen : forall a c, String.length (String c a ++ t)
                             <> String.length t).
  { intros a c. rewrite str_app_cons. cbn [String.length].
    rewrite str_length_app. lia. }
  induction a as [|x a IH]; intros [|y b] H.
  - reflexivity.
  - exfalso. apply (Hlen b y). rewrite <- H. reflexivity.
  - exfalso. apply (Hlen a x). rewrite H. reflexivity.
  - rewrite !str_app_cons in H. injection H as -> H. f_equal.
    apply IH. exact H.
Qed.

Lemma f1_result_epoch_csv_inj (dir : string) (e1 e2 : Z) :
  f1_result_epoch_csv dir e1 = f1_result_epoch_csv dir e2 -> e1 = e2.
Proof.
  unfold f1_result_epoch_csv. intros H.
  apply String.app_inj in H. apply String.app_inj in H.
  apply str_app_inv_tail in H. apply (inj pretty) in H. exact H.
Qed.

Lemma f1_result_epoch_csv_not_best (dir : string) (e : Z) :
  f1_result_epoch_csv dir e <> f1_result_csv dir.
Proof.
  unfold f1_result_epoch_csv, f1_result_csv. intros H.
  apply String.app_inj in H.
  repeat rewrite str_app_cons in H. discriminate H.
Qed.

(** X5: asked not to save the best table, the writer puts the table in
    the file numbered by the epoch; it leaves f1_result.csv and the files
    of all other epochs as they were, so that distinct epochs never
    overwrite each other's table. *)
Theorem save_f1_result_per_epoch_file (epoch : Z) (report : report_dict)
    (dir : string) (w w' : world) :
  save_f1_result epoch report dir false w = Py.Ok w' ->
  (exists df, f1_frame report = Py.Ok df /\
     fs w' !! f1_result_epoch_csv dir epoch = Some (File (f1_csv df))) /\
  fs w' !! f1_result_csv dir = fs w !! f1_result_csv dir /\
  forall e', e' <> epoch ->
    fs w' !! f1_result_epoch_csv dir e' = fs w !! f1_result_epoch_csv dir e'.
Proof.
  unfold save_f1_result. intros H. bind_cases H. injection H as <-.
  fold (f1_result_epoch_csv dir epoch).
  unfold write_file. cbn [fs]. split; [|split].
  - eexists. split; [reflexivity|]. apply lookup_insert_eq.
  - apply lookup_insert_ne. apply f1_result_epoch_csv_not_best.
  - intros e' He. apply lookup_insert_ne. intros Heq.
    apply f1_result_epoch_csv_inj in Heq. congruence.
Qed.

Lemma save_f1_result_per_epoch_file_witness :
  let w' := ok_or empty_world
              (save_f1_result 3 (uniform_report one_half) "model/ensem"
                              false empty_world) in
  is_Some (fs w' !! f1_result_epoch_csv "model/ensem" 3) /\
  fs w' !! f1_result_csv "model/ensem" = None /\
  fs w' !! f1_result_epoch_csv "model/ensem" 4 = None.
Proof.
  intros w'.
  assert (H : save_f1_result 3 (uniform_report one_half) "model/ensem"
                             false empty_world = Py.Ok w')
    by (vm_compute; reflexivity).
  destruct (save_f1_result_per_epoch_file 3 (uniform_report one_half)
              "model/ensem" empty_world w' H) as ((df & _ & H1) & H2 & H3).
  split; [rewrite H1; eexists; reflexivity|].
  split; [rewrite H2; reflexivity|].
  rewrite (H3 4%Z) by lia. reflexivity.
Defined.

Lemma foldl_insert_ext {A : Type} (g h : nat -> A) (index : list nat) :
  (forall i, i ∈ index -> g i = h i) ->
  forall l : list A,
    foldl (fun d i => <[i := g i]> d) l index =
    foldl (fun d i => <[i := h i]> d) l index.
Proof.
  induction index as [|i index IH]; intros Hgh l; [reflexivity|].
  cbn [foldl]. rewrite (Hgh i) by (apply elem_of_cons; auto).
  apply IH. intros j Hj. apply Hgh. apply elem_of_cons. auto.
Qed.

(** X6: the table depends on the report's entries for the classes 0 to
    17 alone: a report that covers them and another that agrees with it on
    them, whatever else either holds (further classes, the accuracy and
    average entries), give the same table. *)
Theorem f1_frame_reads_18_classes (r1 r2 : report_dict) :
  covers_classes r1 ->
  (forall i : nat, (i < 18)%nat -> report_row r1 i = report_row r2 i) ->
  f1_frame r1 = f1_frame r2.
Proof.
  intros Hcov Hagree. unfold f1_frame.
  rewrite !fill_f1_rows_ok.
  - f_equal. apply foldl_insert_ext. intros i Hi.
    apply elem_of_seq in Hi. unfold stored_row.
    rewrite Hagree by lia. reflexivity.
  - intros i Hi. apply elem_of_seq in Hi.
    rewrite <- Hagree by lia. apply Hcov. lia.
  - intros i Hi. apply elem_of_seq in Hi. apply Hcov. lia.
Qed.

Lemma f1_frame_reads_18_classes_witness :
  covers_classes (uniform_report one_half) /\
  report_with_summaries one_half <> uniform_report one_half /\
  f1_frame (uniform_report one_half) =
    f1_frame (report_with_summaries one_half).
Proof.
  assert (Hcov : covers_classes (uniform_report one_half)).
  { intros i Hi.
    do 18 (destruct i as [|i]; [vm_compute; eexists; reflexivity|]). lia. }
  split; [exact Hcov|]. split.
  - intros H. apply (f_equal (fun r => r !! "macro avg")) in H.
    vm_compute in H. discriminate H.
  - apply (f1_frame_reads_18_classes _ _ Hcov).
    intros i Hi.
    do 18 (destruct i as [|i]; [vm_compute; reflexivity|]). lia.
Defined.

(** ** increment_path *)






(** ** The epochs of a fold, further *)

Lemma written_paths_app (t1 t2 : list event) :
  written_paths (t1 ++ t2) = (written_paths t1 ++ written_paths t2)%list.
Proof. apply omap_app. Qed.


(** The batch loop writes no file and logs under its two tags only. *)
Lemma train_loop_quiet (args : Args) (epoch len : Z) (bs : list batch) :
  forall idx lv m w lv' m' w',
    train_loop args epoch len idx bs lv m w = Py.Ok (lv', m', w') ->
    written_paths (trace w') = written_paths (trace w) /\
    forall tag,
      String.eqb "Train/loss" tag = false ->
      String.eqb "Train/accuracy" tag = false ->
      scalars tag (trace w') = scalars tag (trace w).
Proof.
  induction bs as [|b bs IH]; intros idx lv m w lv' m' w' H.
  - cbn in H. injection H as <- <- <-. auto.
  - cbn [train_loop] in H. bind_cases H.
    destruct (a =? 0)%Z.
    + bind_cases H. apply IH in H as [Hp Hs]. split.
      * rewrite Hp. unfold add_scalar, emit. cbn [trace].
        rewrite !written_paths_app. cbn. rewrite !app_nil_r. reflexivity.
      * intros tag H1 H2. rewrite (Hs tag H1 H2).
        unfold add_scalar, emit. cbn [trace].
        rewrite !scalars_app. unfold scalars at 2 3.
        cbn [omap list_omap]. rewrite H1, H2. cbn.
        rewrite !app_nil_r. reflexivity.
    + apply IH in H. exact H.
Qed.

Lemma run_epoch_val_scalars (args : Args) (save_dir : string) (epoch : Z)
    (d : epoch_data) (b b' : best) (w w' : world) :
  run_epoch args save_dir epoch d b w = Py.Ok (b', w') ->
  scalars "Val/loss" (trace w') =
    (scalars "Val/loss" (trace w) ++ [(val_loss d, epoch)])%list /\
  scalars "Val/accuracy" (trace w') =
    (scalars "Val/accuracy" (trace w) ++ [(val_acc d, epoch)])%list.
Proof.
  unfold run_epoch. intros H. bind_cases H. destruct a as [[lv m] w1].
  apply train_loop_quiet in E as [_ Hs]. cbn [snd] in H.
  rewrite <- (Hs "Val/loss") by reflexivity.
  rewrite <- (Hs "Val/accuracy") by reflexivity.
  apply validate_inv in H as [(_ & _ & df & _ & ->) | (_ & _ & ->)];
    unfold add_scalar, emit, torch_save, write_file; cbn [trace];
    rewrite !scalars_app; cbn; rewrite !app_nil_r; split; reflexivity.
Qed.

(** X12: each epoch of a fold logs its validation loss and accuracy
    once, under the epoch's number as step, in the order of the epochs. *)
Theorem val_scalars_once_per_epoch (args : Args) (save_dir : string)
    (ds : list epoch_data) :
  forall epoch b w b' w',
    run_epochs args save_dir epoch ds b w = Py.Ok (b', w') ->
    scalars "Val/loss" (trace w') =
      (scalars "Val/loss" (trace w) ++
       imap (fun i d => (val_loss d, epoch + Z.of_nat i)%Z) ds)%list /\
    scalars "Val/accuracy" (trace w') =
      (scalars "Val/accuracy" (trace w) ++
       imap (fun i d => (val_acc d, epoch + Z.of_nat i)%Z) ds)%list.
Proof.
  induction ds as [|d ds IH]; intros epoch b w b' w' H.
  - cbn in H. injection H as <- <-. cbn. rewrite !app_nil_r. auto.
  - cbn [run_epochs] in H. bind_cases H. destruct a as [b1 w1].
    cbn [fst snd] in H.
    apply run_epoch_val_scalars in E as [El Ea].
    apply IH in H as [Hl Ha]. rewrite Hl, Ha, El, Ea.
    cbn [imap]. rewrite <- !app_assoc. cbn [app].
    rewrite Z.add_0_r. split; f_equal; f_equal;
      apply imap_ext; intros i x _; cbn; f_equal; lia.
Qed.

Lemma val_scalars_once_per_epoch_witness :
  let r := ok_or (init_best, empty_world)
             (run_epochs sample_args "model/ensem" 0 two_epochs init_best
                         empty_world) in
  scalars "Val/loss" (trace r.2) = [(one_third, 0%Z); (one_half, 1%Z)] /\
  scalars "Val/accuracy" (trace r.2) = [(one_half, 0%Z); (one_third, 1%Z)].
Proof.
  intros r.
  assert (H : run_epochs sample_args "model/ensem" 0 two_epochs init_best
                         empty_world = Py.Ok (r.1, r.2))
    by (vm_compute; reflexivity).
  apply (val_scalars_once_per_epoch sample_args "model/ensem" two_epochs
           0 init_best empty_world r.1 r.2 H).
Defined.

Lemma length_concat_uniform {A : Type} (n : Z) (wins : list (list A)) :
  Forall (fun win => Z.of_nat (length win) = n) wins ->
  Z.of_nat (length (concat wins)) = (Z.of_nat (length wins) * n)%Z.
Proof.
  induction 1 as [|win wins Hw _ IH]; [reflexivity|].
  cbn [concat length]. rewrite length_app. lia.
Qed.

(** X13: an epoch of [B] batches logs its training loss and accuracy
    [B / |log_interval|] times, rounded down; with fewer batches than the
    interval it logs nothing, and the running sums then cover the whole
    epoch. *)
Theorem train_loop_log_count (args : Args) (epoch : Z) (bs : list batch)
    (w : world) (lv : Float.t) (m : Z) (w' : world) :
  train_loop args epoch (Z.of_nat (length bs)) 0 bs Float.zero 0 w
    = Py.Ok (lv, m, w') ->
  let count := Z.to_nat (Z.of_nat (length bs) / Z.abs (log_interval args)) in
  length (scalars "Train/loss" (trace w')) =
    (length (scalars "Train/loss" (trace w)) + count)%nat /\
  length (scalars "Train/accuracy" (trace w')) =
    (length (scalars "Train/accuracy" (trace w)) + count)%nat /\
  ((Z.of_nat (length bs) < Z.abs (log_interval args))%Z ->
   trace w' = trace w /\ lv = sum_loss bs /\ m = sum_matches bs).
Proof.
  intros H count.
  destruct (Z.eq_dec (log_interval args) 0%Z) as [HL0|HL].
  - destruct bs as [|b bs].
    + cbn in H. injection H as <- <- <-. subst count. cbn.
      rewrite !Nat.add_0_r. repeat split; reflexivity.
    + cbn [train_loop] in H. unfold py_mod in H. rewrite HL0 in H.
      discriminate H.
  - change Float.zero with (sum_loss []) in H.
    change 0%Z with (sum_matches []) in H at 2.
    apply (train_loop_windows args epoch _ bs 0%Z 0%Z []) in H;
      [|exact HL|cbn; lia|cbn; lia].
    destruct H as (wins & tail & Hcat & Hall & Htail & Htr & -> & ->).
    cbn [app length] in Hcat, Htr. rewrite Z.sub_0_r in Htr.
    pose proof (length_concat_uniform _ _ Hall) as Hlen.
    assert (Hcount : count = length wins).
    { subst count. rewrite Hcat, length_app, Nat2Z.inj_add, Hlen.
      rewrite Z.add_comm, Z.div_add by lia.
      rewrite Z.div_small by lia. lia. }
    split; [|split].
    + rewrite Htr, scalars_app, scalars_windows_log_loss, length_app,
        length_imap, Hcount. reflexivity.
    + rewrite Htr, scalars_app, scalars_windows_log_acc, length_app,
        length_imap, Hcount. reflexivity.
    + intros Hshort. destruct wins as [|win wins].
      * cbn in Hcat, Htr. rewrite app_nil_r in Htr. subst tail. auto.
      * exfalso. rewrite Hcat, length_app, Nat2Z.inj_add, Hlen in Hshort.
        cbn [length] in Hshort. lia.
Qed.

Lemma train_loop_log_count_witness :
  let r := ok_or (Float.zero, 0%Z, empty_world)
             (train_loop sample_args 1 3 0 sample_batches Float.zero 0
                         empty_world) in
  length (scalars "Train/loss" (trace r.2)) = 1%nat /\
  length (scalars "Train/accuracy" (trace r.2)) = 1%nat.
Proof.
  intros r.
  assert (H : train_loop sample_args 1 (Z.of_nat (length sample_batches)) 0
                sample_batches Float.zero 0 empty_world
              = Py.Ok (r.1.1, r.1.2, r.2)) by (vm_compute; reflexivity).
  destruct (train_loop_log_count sample_args 1 sample_batches empty_world
              r.1.1 r.1.2 r.2 H) as (Hl & Ha & _).
  split; [exact Hl | exact Ha].
Defined.


(** ** What the epochs of a fold leave alone *)





(** ** Runs with no epoch and runs that cannot log *)





Lemma run_fold_zero_log_interval (model_dir : string) (args : Args)
    (f : fold_data) (w : world) :
  log_interval args = 0%Z ->
  (0 < epochs args)%Z ->
  train_batches (epoch_at f 0%nat) <> [] ->
  run_fold model_dir args f w = Py.Raise Py.ZeroDivisionError.
Proof.
  intros HL He Hb. unfold run_fold, fold_epochs.
  destruct fold_model_is_b0_18 as (m & -> & _).
  destruct (Z.to_nat (epochs args)) as [|k] eqn:Hk; [lia|].
  cbn [seq fmap list_fmap run_epochs]. unfold run_epoch.
  destruct (train_batches (epoch_at f 0%nat)) as [|b bs]; [congruence|].
  cbn [train_loop]. unfold py_mod. rewrite HL. reflexivity.
Qed.

(** X11: with a log interval of 0 the run stops at the first training
    batch: as soon as the first fold has an epoch to run and that epoch a
    batch, [train] raises ZeroDivisionError, from the remainder
    [(idx + 1) % log_interval]. *)
Theorem train_zero_log_interval (data_dir model_dir : string) (args : Args)
    (fold_at : nat -> fold_data) (w : world) :
  log_interval args = 0%Z ->
  (0 < epochs args)%Z ->
  train_batches (epoch_at (fold_at 0%nat) 0%nat) <> [] ->
  train data_dir model_dir args fold_at w = Py.Raise Py.ZeroDivisionError.
Proof.
  intros HL He Hb. unfold train.
  change (fold_at <$> seq 0 5)
    with (fold_at 0%nat :: (fold_at <$> seq 1 4)).
  cbn [run_folds].
  rewrite (run_fold_zero_log_interval _ _ _ _ HL He Hb). reflexivity.
Qed.

Lemma train_zero_log_interval_witness :
  let args := mkArgs 42 2 "MaskSplitByProfileDataset" 64 64 "Adam" one_half
                     one_half "label_smoothing" 10 0 "ensem" "data"
                     "./model" in
  log_interval args = 0%Z /\
  train "data" "./model" args (fun _ => sample_fold) empty_world
    = Py.Raise Py.ZeroDivisionError.
Proof.
  intros args. split; [reflexivity|].
  apply (train_zero_log_interval "data" "./model" args
           (fun _ => sample_fold) empty_world).
  - reflexivity.
  - cbn. lia.
  - discriminate.
Defined.

(** ** The directories of the folds *)


























(** ** Where a run writes *)






(** ** Scores that are not numbers *)

Lemma ltb_not_nan_r (a b : Float.t) :
  Float.ltb a b = true -> Float.is_nan b = false.
Proof.
  destruct b as [[]|[]| |[] mb eb]; try reflexivity.
  destruct a as [[]|[]| |[] ma ea]; float_order.
Qed.

(** X17: whatever the validation scores of the epochs are, NaN included,
    the best F1 of a fold is a number after them: the 0 it starts with,
    the three best values being the initial ones, or a value above 0.  An
    epoch whose F1 is NaN or not above 0 never makes best.pth: the file
    is written at most once per epoch that scored above 0. *)
Theorem best_f1_stays_number (args : Args) (save_dir : string)
    (ds : list epoch_data) (w0 : world) (b : best) (w : world) :
  run_epochs args save_dir 0 ds init_best w0 = Py.Ok (b, w) ->
  Float.is_nan (best_f1 b) = false /\
  (b = init_best \/ Float.ltb Float.zero (best_f1 b) = true) /\
  (length (writes_to (best_pth save_dir) (trace w)) <=
   length (writes_to (best_pth save_dir) (trace w0)) +
   length (filter (fun d => Float.ltb Float.zero (val_f1 d) = true) ds))%nat.
Proof.
  revert b w. induction ds as [|d ds IH] using rev_ind; intros b w H.
  - cbn in H. injection H as <- <-. cbn. split; [reflexivity|].
    split; [left; reflexivity | lia].
  - apply run_epochs_snoc in H as (b1 & w1 & H1 & H2).
    destruct (IH _ _ H1) as (Hnan & Hpos & Hlen). clear IH H1.
    rewrite list.filter_app, length_app.
    destruct (Float.gtb (val_f1 d) (best_f1 b1)) eqn:Hgt.
    + apply run_epoch_improved in H2 as (-> & _ & Hw & _); [|exact Hgt].
      unfold Float.gtb in Hgt. cbn [best_of best_f1].
      assert (Hd : Float.ltb Float.zero (val_f1 d) = true).
      { destruct Hpos as [-> | Hpos]; [exact Hgt|].
        eapply ltb_trans; eassumption. }
      split; [eapply ltb_not_nan_r; exact Hgt|]. split; [right; exact Hd|].
      rewrite Hw, length_app. cbn [length].
      rewrite list.filter_cons_True by exact Hd. cbn [length]. lia.
    + apply run_epoch_not_improved in H2 as (-> & Hun); [|exact Hgt].
      split; [exact Hnan|]. split; [exact Hpos|].
      destruct (Hun (best_pth save_dir) ltac:(auto)) as [_ Hw].
      rewrite Hw. lia.
Qed.

Lemma best_f1_stays_number_witness :
  let ds := [nan_epoch; sample_epoch one_third one_half one_third;
             nan_epoch] in
  let r := ok_or (init_best, empty_world)
             (run_epochs sample_args "model/ensem" 0 ds init_best
                         empty_world) in
  Float.is_nan (best_f1 r.1) = false /\
  (length (writes_to (best_pth "model/ensem") (trace r.2)) <= 1)%nat.
Proof.
  intros ds r.
  assert (H : run_epochs sample_args "model/ensem" 0 ds init_best
                         empty_world = Py.Ok (r.1, r.2))
    by (vm_compute; reflexivity).
  destruct (best_f1_stays_number sample_args "model/ensem" ds empty_world
              r.1 r.2 H) as (Hn & _ & Hl).
  split; [exact Hn | exact Hl].
Defined.
